(** * homebox: the favourites map (map.py)

    A shallow embedding of [map.py]: the matcher ([match_in_devices] and its
    two lookups), the JSON key/value store ([save], [load]), the
    favourites operations ([test_favourites], [save_favourite],
    [delete_favourite]), the gateway checks, the backup and the script.

    Conventions of the embedding.
    - A device is the pair [(psrc, hwsrc)] the scan produces; [d[0]] is
      [d.1] and [d[1]] is [d.2].
    - A favourite is the list [[name, [ip, mac], lastonline]]; the source
      tolerates a missing third element ([len(fav) > 2]), which is
      [f_last = None] here.
    - Timestamps are stored, copied and formatted, never computed with;
      they are integers here.  Where the source reads the clock for an
      omitted [now] or [lastonline], the reading is an argument.
    - Python exceptions are the [Raise] results of the [Py] monad.  The
      world threaded through it holds the files on disk, the network that
      answers ARP requests, the timestamps the platform refuses to format,
      and a trace of the requests sent and the files written.
    - [verbose] is the integer the source takes.  The text it prints is
      not kept, but what is evaluated to print it is: [parse_unix], the
      unpacking of the records and the indexing of the address can raise,
      and do so here. *)

From stdpp Require Import gmap strings list.

Local Open Scope Z_scope.

(** ** Constants *)

Definition __DEFAULT_VERBOSE : Z := 1.

Definition _DEFAULT_FILE : string := "homebox_map_data.json".
Definition _HOME_BASE : string := "192.168.178.".
Definition _HOME_RANGE : string := _HOME_BASE +:+ "0/24".
Definition _PREFERRED_GATEWAY : string := _HOME_BASE +:+ "1".
Definition _BACKUP_GATEWAY : string := "192.168.0.1".
Definition _MAIN_LIST : string := "fav_devices".

(** ** Data *)

Definition Device : Type := string * string.

Record Fav : Type := mkFav {
  f_name : string;
  f_addr : Device;
  f_last : option Z
}.

(** [(name, (ip, mac), t)] as the source builds it. *)
Definition fav3 (name : string) (addr : Device) (t : Z) : Fav :=
  mkFav name addr (Some t).

(** [fav[2] if len(fav) > 2 else 0] *)
Definition lastonline_of (fav : Fav) : Z := default 0 (f_last fav).

(** ** Matcher *)

Fixpoint match_ip_in_devices (ip : string) (devices : list Device) : option Device :=
  match devices with
  | [] => None
  | d :: ds => if decide (d.1 = ip) then Some d else match_ip_in_devices ip ds
  end.

Fixpoint match_mac_in_devices (mac : string) (devices : list Device) : option Device :=
  match devices with
  | [] => None
  | d :: ds => if decide (d.2 = mac) then Some d else match_mac_in_devices mac ds
  end.

(** The first loop of [match_in_devices]: is there a device with both the
    address and the hardware address? *)
Fixpoint full_match (ip mac : string) (devices : list Device) : bool :=
  match devices with
  | [] => false
  | d :: ds =>
      if decide (d.1 = ip) then
        if decide (d.2 = mac) then true else full_match ip mac ds
      else full_match ip mac ds
  end.

(** The return codes, named as the docstring of [match_in_devices] does:
    0 not found, 1 IP changed, 2 MAC changed, 3 conflict, 4 fully
    matching. *)
Definition NOT_FOUND : Z := 0.
Definition IP_CHANGED : Z := 1.
Definition MAC_CHANGED : Z := 2.
Definition CONFLICT : Z := 3.
Definition FULL_MATCH : Z := 4.

(** [verbose] only prints here, and what it prints cannot raise. *)
Definition match_in_devices (ip mac : string) (devices : list Device) : Z :=
  if full_match ip mac devices then 4
  else
    let mid := match_ip_in_devices ip devices in
    let mmd := match_mac_in_devices mac devices in
    match mid, mmd with
    | Some _, Some _ => 3
    | Some _, None => 2
    | None, Some _ => 1
    | None, None => 0
    end.

(** ** The world and the [Py] monad *)

Inductive event : Type :=
  | EvArp (pdst : string) (timeout : Z)
  | EvWrite (file : string).

Inductive exn : Type :=
  | TypeError | IndexError | ValueError | OverflowError | OSError.

Inductive result (A : Type) : Type :=
  | Ok (a : A)
  | Raise (e : exn).
Arguments Ok {A} a.
Arguments Raise {A} e.

(** The network answers a request from what was sent and written so far,
    the target and the timeout. *)
Definition Network : Type := list event → string → Z → list Device.

(** The platform's [time.localtime]: the exception it raises for a
    timestamp it cannot convert, if any. *)
Definition Platform : Type := Z → option exn.

Section Store.
Context {V : Type}.

Record World : Type := mkWorld {
  disk : gmap string (gmap string V);
  network : Network;
  localtime : Platform;
  trace : list event
}.

Definition Py (A : Type) : Type := World → result A * World.

Definition ret {A} (a : A) : Py A := λ w, (Ok a, w).

Definition raise {A} (e : exn) : Py A := λ w, (Raise e, w).

Definition bind {A B} (m : Py A) (k : A → Py B) : Py B :=
  λ w, match m w with
       | (Ok a, w') => k a w'
       | (Raise e, w') => (Raise e, w')
       end.

Definition emit (ev : event) (w : World) : World :=
  mkWorld (disk w) (network w) (localtime w) (trace w ++ [ev]).

(** [open(file, 'r')] then [json.load]; [None] is FileNotFoundError. *)
Definition read_file (file : string) : Py (option (gmap string V)) :=
  λ w, (Ok (disk w !! file), w).

(** [open(file, 'w')] then [json.dump(data, f)]. *)
Definition write_file (file : string) (data : gmap string V) : Py unit :=
  λ w, (Ok (), mkWorld (<[file := data]> (disk w)) (network w) (localtime w)
                       (trace w ++ [EvWrite file])).

Definition save (key : string) (value : V) (file : string) : Py unit :=
  bind (read_file file) (λ r,
    let data := match r with Some data => data | None => ∅ end in
    let data := <[key := value]> data in
    write_file file data).

(** [load(key, file)] for a key that is given. *)
Definition load (key : string) (file : string) : Py (option V) :=
  bind (read_file file) (λ r,
    match r with
    | Some data => ret (data !! key)
    | None => ret None
    end).

(** [load(None, file)]: the whole document. *)
Definition load_all (file : string) : Py (gmap string V) :=
  bind (read_file file) (λ r,
    match r with
    | Some data => ret data
    | None => ret ∅
    end).

(** [time.strftime(..., time.localtime(timestamp))]: the text goes to the
    console only; the call raises what the platform raises. *)
Definition parse_unix (timestamp : Z) : Py unit :=
  λ w, match localtime w timestamp with
       | None => (Ok (), w)
       | Some e => (Raise e, w)
       end.

(** The request goes out and the network answers; the answer is the
    list of [(psrc, hwsrc)] of the responders.  [verbose] only prints. *)
Definition send_ARP (ip : string) (timeout : Z) : Py (list Device) :=
  λ w, (Ok (network w (trace w) ip timeout), emit (EvArp ip timeout) w).

(** As [test_favourites] calls it, with a boolean for [verbose]: the
    sorted listing under [verbose > 1] is then never reached. *)
Definition find_all_devices (iprange : string) (timeout : Z) : Py (list Device) :=
  send_ARP iprange timeout.
End Store.

Arguments World : clear implicits.
Arguments Py : clear implicits.

Notation "'let*' x ':=' m 'in' k" := (bind m (λ x, k))
  (at level 10, x name, m at level 100, k at level 200,
   format "'let*'  x  :=  m  'in'  '/' k").
Notation "'let*' ' p ':=' m 'in' k" := (bind m (λ p, k))
  (at level 10, p pattern, m at level 100, k at level 200,
   format "'let*'  ' p  :=  m  'in'  '/' k").
Notation "m ';;' k" := (bind m (λ _, k))
  (at level 100, k at level 200, right associativity).

(** Python truthiness of a list. *)
Definition truthy {A} (l : list A) : bool :=
  match l with [] => false | _ => true end.

(** [x[i]] where [x] may be [None]: TypeError. *)
Definition subscript {V A} (x : option A) : Py V A :=
  match x with
  | Some a => ret a
  | None => raise TypeError
  end.

(** [l[0]] on a list: IndexError when empty. *)
Definition first_item {V A} (l : list A) : Py V A :=
  match l with
  | a :: _ => ret a
  | [] => raise IndexError
  end.

(** [s[i]] on a string: IndexError past its end. *)
Definition char_at {V} (s : string) (i : nat) : Py V Ascii.ascii :=
  match String.get i s with
  | Some c => ret c
  | None => raise IndexError
  end.

(** [if verbose: print(...)], for what the print evaluates. *)
Definition when_verbose {V} (verbose : Z) (m : Py V unit) : Py V unit :=
  if decide (verbose ≠ 0) then m else ret ().

(** [verbose > 1], the boolean passed on as [verbose]. *)
Definition above_one (verbose : Z) : Z :=
  if decide (1 < verbose) then 1 else 0.

(** ** Favourites *)

Abbreviation FWorld := (World (list Fav)).
Abbreviation FPy := (Py (list Fav)).

(** One turn of the listing loop of [load_favourites]:
    [for name, (ip, mac), lastonline in favourites:] unpacks the record
    into three, and the line printed formats [lastonline] and takes
    [ip[0]] and [ip[1]]. *)
Definition show_favourite (fav : Fav) : FPy unit :=
  match f_last fav with
  | None => raise ValueError
  | Some lastonline =>
      parse_unix lastonline ;;
      char_at (f_addr fav).1 0 ;;
      char_at (f_addr fav).1 1 ;;
      ret ()
  end.

Fixpoint show_favourites (favourites : list Fav) : FPy unit :=
  match favourites with
  | [] => ret ()
  | fav :: rest => show_favourite fav ;; show_favourites rest
  end.

Definition load_favourites (verbose : Z) (key file : string) : FPy (list Fav) :=
  let* favourites := load key file in
  match favourites with
  | None => ret []
  | Some favourites =>
      when_verbose verbose (show_favourites favourites) ;;
      ret favourites
  end.

(** The body of the loop of [test_favourites], on the two lists it
    appends to. *)
Definition test_favourite (verbose : Z) (devices : list Device) (now timeout : Z)
    (acc : list Fav * list Fav) (fav : Fav) : FPy (list Fav * list Fav) :=
  let '(online, new_favourites) := acc in
  let name := f_name fav in
  let ip := (f_addr fav).1 in
  let mac := (f_addr fav).2 in
  let lastonline := lastonline_of fav in
  let mid := match_in_devices ip mac devices in
  let* '(mid, new_favourites) :=
    (if decide (mid = 0) then
       let* result := send_ARP ip timeout in
       if truthy result then ret (4, new_favourites)
       else
         when_verbose verbose (parse_unix lastonline) ;;
         ret (mid, new_favourites ++ [fav])
     else ret (mid, new_favourites)) in
  if decide (mid = 1) then
    let* d := subscript (match_ip_in_devices ip devices) in
    let newmac := d.2 in
    when_verbose verbose (parse_unix lastonline) ;;
    ret (online, new_favourites ++ [fav])
  else if decide (mid = 2) then
    let* d := subscript (match_mac_in_devices mac devices) in
    let newip := d.1 in
    when_verbose verbose (parse_unix lastonline) ;;
    ret (online ++ [fav3 name (newip, mac) lastonline],
         new_favourites ++ [fav3 name (newip, mac) now])
  else if decide (mid = 3) then
    let* d := subscript (match_mac_in_devices mac devices) in
    let newip := d.1 in
    let* d' := subscript (match_ip_in_devices ip devices) in
    let newmac := d'.2 in
    when_verbose verbose (parse_unix lastonline) ;;
    ret (online ++ [fav3 name (newip, mac) lastonline],
         new_favourites ++ [fav3 name (newip, mac) now;
                            fav3 (name +:+ "_CONFLICT_OLDIP_NEWMAC") (ip, newmac) now])
  else if decide (mid = 4) then
    when_verbose verbose (parse_unix lastonline) ;;
    ret (online ++ [fav], new_favourites ++ [fav3 name (ip, mac) now])
  else ret (online, new_favourites).

(** [for fav in favourites: ...] *)
Fixpoint for_favourites (verbose : Z) (devices : list Device) (now timeout : Z)
    (favourites : list Fav) (acc : list Fav * list Fav) : FPy (list Fav * list Fav) :=
  match favourites with
  | [] => ret acc
  | fav :: rest =>
      let* acc' := test_favourite verbose devices now timeout acc fav in
      for_favourites verbose devices now timeout rest acc'
  end.

Definition test_favourites (verbose : Z) (favourites : option (list Fav))
    (devices : option (list Device)) (now timeout : Z) : FPy (list Fav) :=
  let* favourites :=
    match favourites with
    | None => load_favourites (above_one verbose) _MAIN_LIST _DEFAULT_FILE
    | Some favourites => ret favourites
    end in
  let* devices :=
    match devices with
    | None => find_all_devices _HOME_RANGE timeout
    | Some devices => ret devices
    end in
  let* '(online, new_favourites) :=
    for_favourites verbose devices now timeout favourites ([], []) in
  save _MAIN_LIST new_favourites _DEFAULT_FILE ;;
  ret online.

(** [[f for f in favourites if f[0] != name]] *)
Definition without_name (name : string) (favourites : list Fav) : list Fav :=
  filter (λ f, f_name f ≠ name) favourites.

Definition save_favourite (verbose : Z) (name ip : string) (mac : option string)
    (lastonline : Z) (key file : string) (devices : option (list Device))
    : FPy bool :=
  let* favourites := load_favourites verbose key file in
  let* mac :=
    match mac with
    | Some mac => ret (Some mac)
    | None =>
        match devices with
        | None =>
            let* result := send_ARP ip 2 in
            let* d := first_item result in
            ret (Some d.2)
        | Some devices =>
            let* d := subscript (match_ip_in_devices ip devices) in
            ret (Some d.2)
        end
    end in
  match mac with
  | None => ret false
  | Some mac =>
      let favourites := without_name name favourites in
      when_verbose verbose (parse_unix lastonline) ;;
      let favourites := favourites ++ [fav3 name (ip, mac) lastonline] in
      save key favourites file ;;
      ret true
  end.

Definition delete_favourite (verbose : Z) (name key file : string) : FPy bool :=
  let* favourites := load_favourites verbose key file in
  if truthy favourites then
    let new_favourites := without_name name favourites in
    save key new_favourites file ;;
    ret true
  else ret false.

(** ** Gateways, backup and the command line *)

Definition test_gateway {V} (gateway : string) : Py V (list Device) :=
  send_ARP gateway 5.

(** [for gateway in gateways: if test_gateway(gateway): return gateway];
    falling off the loop returns [None]. *)
Fixpoint test_all_gateways {V} (gateways : list string) : Py V (option string) :=
  match gateways with
  | [] => ret None
  | gateway :: rest =>
      let* result := test_gateway gateway in
      if truthy result then ret (Some gateway) else test_all_gateways rest
  end.

(** The name is [file + '.' + yyyymmddhhmmss + '.bak'] when none is given;
    the formatted clock reading is an argument. *)
Definition backup_file {V} (file : string) (new_backup_file : option string)
    (yyyymmddhhmmss : string) : Py V bool :=
  let new_backup_file :=
    match new_backup_file with
    | None => file +:+ "." +:+ yyyymmddhhmmss +:+ ".bak"
    | Some new_backup_file => new_backup_file
    end in
  let* r := read_file file in
  match r with
  | None => ret false
  | Some data =>
      write_file new_backup_file data ;;
      ret true
  end.

(** Python truthiness of what [test_all_gateways] returns. *)
Definition truthy_gateway (g : option string) : bool :=
  match g with
  | None => false
  | Some s => bool_decide (s ≠ EmptyString)
  end.

(** How the script ends: [sys.exit(code)], or the report of the pass. *)
Inductive outcome : Type :=
  | Exited (code : Z)
  | Finished (online : list Fav).

(** The closing listing of the script, [f[2]] formatted for each entry. *)
Fixpoint print_online (online : list Fav) : FPy unit :=
  match online with
  | [] => ret ()
  | f :: rest =>
      match f_last f with
      | None => raise IndexError
      | Some t => parse_unix t ;; print_online rest
      end
  end.

(** The [__main__] block. *)
Definition main (now : Z) : FPy outcome :=
  let* result := test_gateway _PREFERRED_GATEWAY in
  if negb (truthy result) then
    let* g := test_all_gateways [_PREFERRED_GATEWAY; _BACKUP_GATEWAY] in
    if truthy_gateway g then ret (Exited 1) else ret (Exited 2)
  else
    let* m := test_favourites __DEFAULT_VERBOSE None None now 2 in
    (if decide (__DEFAULT_VERBOSE ≠ 0) then ret () else print_online m) ;;
    ret (Finished m).

(** ** Vocabulary of the statements *)

(** [d] is the first device of the scan that satisfies [P]. *)
Definition first_with (P : Device → Prop) (d : Device) (devices : list Device) : Prop :=
  ∃ before after,
    devices = before ++ d :: after ∧ P d ∧ ∀ x, x ∈ before → ¬ P x.

Definition fav_ip (fav : Fav) : string := (f_addr fav).1.
Definition fav_mac (fav : Fav) : string := (f_addr fav).2.

(** The code [test_favourites] computes for a favourite. *)
Definition classify (devices : list Device) (fav : Fav) : Z :=
  match_in_devices (fav_ip fav) (fav_mac fav) devices.

Definition is_arp (ev : event) : bool :=
  match ev with EvArp _ _ => true | EvWrite _ => false end.

(** The list persisted under [key] in [file], if any. *)
Definition stored (key file : string) (w : FWorld) : option (list Fav) :=
  disk w !! file ≫= (λ data, data !! key).

(** A network on which nothing answers. *)
Definition silent : Network := λ _ _ _, [].

(** A sample platform with a 64-bit [time_t]: it raises OverflowError for
    a timestamp that does not fit, as [time.localtime] does, and is taken
    to convert the others. *)
Definition time_t64 : Platform :=
  λ t, if (- 2 ^ 63 <=? t) && (t <? 2 ^ 63) then None else Some OverflowError.

(** An empty disk on a silent network. *)
Definition w_init : FWorld := mkWorld ∅ silent time_t64 [].

(** [w'] differs from [w] by ARP requests only: same files, same network,
    same platform, and nothing but requests added to the trace. *)
Definition probes_only (w w' : FWorld) : Prop :=
  disk w' = disk w ∧ network w' = network w ∧ localtime w' = localtime w ∧
  ∃ evs, trace w' = trace w ++ evs ∧ Forall (λ ev, is_arp ev = true) evs.

(** A favourite the loop body cannot handle: code 1 or code 2. *)
Definition moved (devices : list Device) (fav : Fav) : Prop :=
  classify devices fav = IP_CHANGED ∨ classify devices fav = MAC_CHANGED.

(** ** What printing needs *)

(** The message of the pass about a favourite can be printed: the pass is
    quiet, or the platform formats the favourite's timestamp. *)
Definition speakable (verbose : Z) (w : FWorld) (fav : Fav) : Prop :=
  verbose = 0 ∨ localtime w (lastonline_of fav) = None.

(** The listing of [load_favourites] can print the record: it has a
    timestamp, the platform formats it, and its address has two
    characters at least. *)
Definition listable (w : FWorld) (fav : Fav) : Prop :=
  ∃ t, f_last fav = Some t ∧ localtime w t = None ∧
       (2 ≤ String.length (f_addr fav).1)%nat.

Definition listable_all (verbose : Z) (w : FWorld) (favourites : list Fav) : Prop :=
  verbose = 0 ∨ Forall (listable w) favourites.

(** What [if verbose: print(... parse_unix(t) ...)] comes to. *)
Definition said (verbose : Z) (p : Platform) (t : Z) : result unit :=
  if decide (verbose ≠ 0)
  then match p t with None => Ok () | Some e => Raise e end
  else Ok ().

(** ** Two passes in succession *)















(** ** Managing the list *)

(** [[f for f in favourites if f[0] == name]], the records the source
    counts before deleting. *)
Definition named (name : string) (favourites : list Fav) : list Fav :=
  filter (λ f, f_name f = name) favourites.

(** Deleting removes every record with the name and says so, and deleting
    again at once says that nothing was done. *)
Definition delete_then_noop (verbose : Z) (name key file : string)
    (w : FWorld) : Prop :=
  ∃ w1 w2,
    delete_favourite verbose name key file w = (Ok true, w1) ∧
    (∃ remaining, stored key file w1 = Some remaining ∧ named name remaining = []) ∧
    delete_favourite verbose name key file w1 = (Ok false, w2).

(** The hardware address of [ip] cannot be found: not in the snapshot
    when one is given, no answer to the request otherwise. *)
Definition unresolvable (ip : string) (devices : option (list Device))
    (w : FWorld) : Prop :=
  match devices with
  | Some devices => match_ip_in_devices ip devices = None
  | None => network w (trace w) ip 2 = []
  end.

(** Where [save_favourite] takes an omitted hardware address from: the
    first device of the snapshot at the address, or the first answer to
    its own request. *)
Definition resolution (ip : string) (devices : option (list Device))
    (w : FWorld) : option Device :=
  match devices with
  | Some devices => match_ip_in_devices ip devices
  | None => head (network w (trace w) ip 2)
  end.

(** ** Gateways and names *)

(** The requests [test_all_gateways] sends for a list of gateways. *)
Definition gateway_probes (gateways : list string) : list event :=
  (λ g, EvArp g 5) <$> gateways.

(** Does gateway [g] answer when it is asked after the gateways [earlier]
    have been asked? *)
Definition answered {V} (w : World V) (earlier : list string) (g : string) : bool :=
  truthy (network w (trace w ++ gateway_probes earlier) g 5).

(** Every gateway of the list is silent at its turn. *)
Definition all_silent {V} (w : World V) (gateways : list string) : Prop :=
  ∀ earlier g later, gateways = earlier ++ g :: later → answered w earlier g = false.

(** Names the pass writes for a favourite that is not moved: its own, and
    for a conflict the derived one after it. *)
Definition names_written (devices : list Device) (fav : Fav) : list string :=
  if decide (classify devices fav = CONFLICT)
  then [f_name fav; f_name fav +:+ "_CONFLICT_OLDIP_NEWMAC"]
  else [f_name fav].

(** Name and hardware address of a record. *)
Definition identity (fav : Fav) : string * string := (f_name fav, fav_mac fav).

(** ** Sample data *)

Definition printer : Fav :=
  fav3 "printer" ("192.168.178.50", "aa:bb:cc:dd:ee:01") 1000.
Definition lan_printer : list Device :=
  [("192.168.178.99", "aa:bb:cc:dd:ee:01")].

Definition phone : Fav :=
  fav3 "phone" ("192.168.178.20", "11:22:33:44:55:66") 500.
Definition lan_phone : list Device :=
  [("192.168.178.20", "ff:ee:dd:cc:bb:aa"); ("192.168.178.77", "11:22:33:44:55:66")].

(** The phone with a timestamp beyond the range of [time_t64]. *)
Definition phone_far : Fav :=
  fav3 "phone" ("192.168.178.20", "11:22:33:44:55:66") (2 ^ 63).

Definition tv : Fav :=
  fav3 "tv" ("192.168.178.30", "aa:bb:cc:dd:ee:03") 700.
Definition lan_tv : list Device :=
  [("192.168.178.30", "de:ad:be:ef:00:01")].

Definition nas : Fav :=
  fav3 "nas" ("192.168.178.10", "aa:bb:cc:dd:ee:02") 900.
Definition lan_nas_printer : list Device :=
  [("192.168.178.10", "aa:bb:cc:dd:ee:02"); ("192.168.178.99", "aa:bb:cc:dd:ee:01")].

Definition laptop : Fav :=
  fav3 "laptop" ("192.168.178.40", "aa:bb:cc:dd:ee:04") 800.

(** The laptop with a timestamp beyond the range of [time_t64]. *)
Definition laptop_far : Fav :=
  fav3 "laptop" ("192.168.178.40", "aa:bb:cc:dd:ee:04") (2 ^ 63).

(** A network on which only the laptop answers, whenever it is asked. *)
Definition laptop_awake : Network :=
  λ _ ip _, if decide (ip = "192.168.178.40")
            then [("192.168.178.40", "aa:bb:cc:dd:ee:04")] else [].
Definition w_laptop : FWorld := mkWorld ∅ laptop_awake time_t64 [].

(** A disk whose favourites are the nas and the tv. *)
Definition w_nas_tv : FWorld :=
  mkWorld {[ _DEFAULT_FILE := {[ _MAIN_LIST := [nas; tv] ]} ]} silent time_t64 [].

(** A disk with the nas as favourite and one more key in the document. *)
Definition w_two_keys : FWorld :=
  mkWorld {[ _DEFAULT_FILE := {[ _MAIN_LIST := [nas]; "guests" := [tv] ]} ]}
          silent time_t64 [].

(** A network on which the preferred gateway is silent and the backup
    gateway answers. *)
Definition backup_only : Network :=
  λ _ ip _, if decide (ip = _BACKUP_GATEWAY)
            then [(_BACKUP_GATEWAY, "00:11:22:33:44:55")] else [].
Definition w_backup_only : FWorld :=
  mkWorld {[ _DEFAULT_FILE := {[ _MAIN_LIST := [nas; tv] ]} ]} backup_only time_t64 [].

(** A network on which the preferred gateway and the nas answer. *)
Definition home_up : Network :=
  λ _ ip _, if decide (ip = _PREFERRED_GATEWAY)
            then [(_PREFERRED_GATEWAY, "00:11:22:33:44:66")]
            else if decide (ip = _HOME_RANGE)
            then [(_PREFERRED_GATEWAY, "00:11:22:33:44:66");
                  ("192.168.178.10", "aa:bb:cc:dd:ee:02")]
            else [].
Definition w_home_up : FWorld :=
  mkWorld {[ _DEFAULT_FILE := {[ _MAIN_LIST := [nas] ]} ]} home_up time_t64 [].

(** * Properties *)

(** ** The matcher *)

Lemma full_match_elem ip mac (devices : list Device) :
  full_match ip mac devices = true ↔ (ip, mac) ∈ devices.
Proof.
  induction devices as [|[i m] ds IH]; simpl.
  - split; [discriminate | by intros ?%elem_of_nil].
  - rewrite elem_of_cons, <- IH.
    destruct (decide (i = ip)) as [->|Hi]; [destruct (decide (m = mac)) as [->|Hm] |].
    + split; auto.
    + split; [auto | intros [[=]|?]; congruence].
    + split; [auto | intros [[=]|?]; congruence].
Qed.

Lemma match_ip_in_devices_None ip (devices : list Device) :
  match_ip_in_devices ip devices = None ↔ ∀ d, d ∈ devices → d.1 ≠ ip.
Proof.
  induction devices as [|d ds IH]; simpl.
  - split; [by intros _ ? ?%elem_of_nil | done].
  - case_decide as Hd.
    + split; [done | intros H; destruct (H d); [left | done]].
    + rewrite IH. split.
      * intros H x [->|?]%elem_of_cons; auto.
      * intros H x ?. apply H. by right.
Qed.

Lemma match_mac_in_devices_None mac (devices : list Device) :
  match_mac_in_devices mac devices = None ↔ ∀ d, d ∈ devices → d.2 ≠ mac.
Proof.
  induction devices as [|d ds IH]; simpl.
  - split; [by intros _ ? ?%elem_of_nil | done].
  - case_decide as Hd.
    + split; [done | intros H; destruct (H d); [left | done]].
    + rewrite IH. split.
      * intros H x [->|?]%elem_of_cons; auto.
      * intros H x ?. apply H. by right.
Qed.

Lemma match_ip_in_devices_Some ip (devices : list Device) d :
  match_ip_in_devices ip devices = Some d ↔ first_with (λ x, x.1 = ip) d devices.
Proof.
  induction devices as [|x ds IH]; simpl.
  - split; [done | intros (b & a & E & _); by destruct b].
  - case_decide as Hx.
    + split.
      * intros [= ->]. exists [], ds. split_and!; [done | done |].
        by intros ? ?%elem_of_nil.
      * intros (b & a & E & Hd & Hb). destruct b as [|y b]; simpl in E.
        -- by injection E as ->.
        -- injection E as <- ->. destruct (Hb x); [left | done].
    + rewrite IH. split.
      * intros (b & a & -> & Hd & Hb). exists (x :: b), a.
        split_and!; [done | done |].
        intros y [->|?]%elem_of_cons; auto.
      * intros (b & a & E & Hd & Hb). destruct b as [|y b]; simpl in E.
        -- injection E as ->. done.
        -- injection E as <- ->. exists b, a. split_and!; [done | done |].
           intros z ?. apply Hb. by right.
Qed.

Lemma match_mac_in_devices_Some mac (devices : list Device) d :
  match_mac_in_devices mac devices = Some d ↔ first_with (λ x, x.2 = mac) d devices.
Proof.
  induction devices as [|x ds IH]; simpl.
  - split; [done | intros (b & a & E & _); by destruct b].
  - case_decide as Hx.
    + split.
      * intros [= ->]. exists [], ds. split_and!; [done | done |].
        by intros ? ?%elem_of_nil.
      * intros (b & a & E & Hd & Hb). destruct b as [|y b]; simpl in E.
        -- by injection E as ->.
        -- injection E as <- ->. destruct (Hb x); [left | done].
    + rewrite IH. split.
      * intros (b & a & -> & Hd & Hb). exists (x :: b), a.
        split_and!; [done | done |].
        intros y [->|?]%elem_of_cons; auto.
      * intros (b & a & E & Hd & Hb). destruct b as [|y b]; simpl in E.
        -- injection E as ->. done.
        -- injection E as <- ->. exists b, a. split_and!; [done | done |].
           intros z ?. apply Hb. by right.
Qed.

Lemma first_with_elem P d devices : first_with P d devices → d ∈ devices ∧ P d.
Proof.
  intros (b & a & -> & Hd & _). split; [|done].
  apply elem_of_app. right. by left.
Qed.

(** What each return code of [match_in_devices] says about the lookups. *)
Lemma match_in_devices_code ip mac (devices : list Device) :
  match full_match ip mac devices,
        match_ip_in_devices ip devices, match_mac_in_devices mac devices with
  | true, _, _ => match_in_devices ip mac devices = 4
  | false, Some _, Some _ => match_in_devices ip mac devices = 3
  | false, Some _, None => match_in_devices ip mac devices = 2
  | false, None, Some _ => match_in_devices ip mac devices = 1
  | false, None, None => match_in_devices ip mac devices = 0
  end.
Proof.
  unfold match_in_devices.
  destruct (full_match ip mac devices); [by repeat case_match |].
  by destruct (match_ip_in_devices ip devices), (match_mac_in_devices mac devices).
Qed.

Lemma match_in_devices_inv ip mac (devices : list Device) r :
  match_in_devices ip mac devices = r →
  (r = 4 ∧ full_match ip mac devices = true) ∨
  (full_match ip mac devices = false ∧
   ((r = 3 ∧ is_Some (match_ip_in_devices ip devices)
           ∧ is_Some (match_mac_in_devices mac devices)) ∨
    (r = 2 ∧ is_Some (match_ip_in_devices ip devices)
           ∧ match_mac_in_devices mac devices = None) ∨
    (r = 1 ∧ match_ip_in_devices ip devices = None
           ∧ is_Some (match_mac_in_devices mac devices)) ∨
    (r = 0 ∧ match_ip_in_devices ip devices = None
           ∧ match_mac_in_devices mac devices = None))).
Proof.
  intros <-. unfold match_in_devices.
  destruct (full_match ip mac devices); [by left | right; split; [done |]].
  destruct (match_ip_in_devices ip devices), (match_mac_in_devices mac devices);
    naive_solver.
Qed.

(** C4. [match_in_devices] is a total function whose value is one of the
    five codes: fully matching exactly when the pair occurs anywhere in the
    snapshot (empty or with duplicates), and otherwise conflict, MAC
    changed, IP changed or not found according to whether the address and
    the hardware address occur at all; the two lookups that supply the
    values of a partial match return the first device in scan order. *)
Theorem match_in_devices_classifies ip mac (devices : list Device) :
  let r := match_in_devices ip mac devices in
  let ip_seen := ∃ d, d ∈ devices ∧ d.1 = ip in
  let mac_seen := ∃ d, d ∈ devices ∧ d.2 = mac in
  (r = FULL_MATCH ∨ r = MAC_CHANGED ∨ r = IP_CHANGED ∨ r = CONFLICT ∨ r = NOT_FOUND) ∧
  (r = FULL_MATCH ↔ (ip, mac) ∈ devices) ∧
  (r = CONFLICT ↔ ((ip, mac) ∉ devices) ∧ ip_seen ∧ mac_seen) ∧
  (r = MAC_CHANGED ↔ ((ip, mac) ∉ devices) ∧ ip_seen ∧ ¬ mac_seen) ∧
  (r = IP_CHANGED ↔ ((ip, mac) ∉ devices) ∧ ¬ ip_seen ∧ mac_seen) ∧
  (r = NOT_FOUND ↔ ¬ ip_seen ∧ ¬ mac_seen) ∧
  (∀ d, match_ip_in_devices ip devices = Some d ↔
        first_with (λ x, x.1 = ip) d devices) ∧
  (∀ d, match_mac_in_devices mac devices = Some d ↔
        first_with (λ x, x.2 = mac) d devices).
Proof.
  intros r ip_seen mac_seen.
  assert (Hip : is_Some (match_ip_in_devices ip devices) ↔ ip_seen).
  { rewrite <- not_eq_None_Some, match_ip_in_devices_None. unfold ip_seen. split.
    - intros H. destruct (match_ip_in_devices ip devices) as [d|] eqn:E.
      + apply match_ip_in_devices_Some, first_with_elem in E. eauto.
      + destruct H. by apply match_ip_in_devices_None.
    - intros (d & Hd & E) H. by apply (H d). }
  assert (Hmac : is_Some (match_mac_in_devices mac devices) ↔ mac_seen).
  { rewrite <- not_eq_None_Some, match_mac_in_devices_None. unfold mac_seen. split.
    - intros H. destruct (match_mac_in_devices mac devices) as [d|] eqn:E.
      + apply match_mac_in_devices_Some, first_with_elem in E. eauto.
      + destruct H. by apply match_mac_in_devices_None.
    - intros (d & Hd & E) H. by apply (H d). }
  assert (Hfull : (ip, mac) ∈ devices → ip_seen ∧ mac_seen).
  { intros H. split; by exists (ip, mac). }
  pose proof (full_match_elem ip mac devices) as Hex.
  pose proof (match_in_devices_inv ip mac devices r eq_refl) as Hr.
  assert (Hnip : match_ip_in_devices ip devices = None ↔ ¬ ip_seen)
    by (by rewrite <- Hip, eq_None_not_Some).
  assert (Hnmac : match_mac_in_devices mac devices = None ↔ ¬ mac_seen)
    by (by rewrite <- Hmac, eq_None_not_Some).
  assert (Hnex : full_match ip mac devices = false ↔ (ip, mac) ∉ devices)
    by (by rewrite <- Hex, not_true_iff_false).
  unfold FULL_MATCH, MAC_CHANGED, IP_CHANGED, CONFLICT, NOT_FOUND.
  rewrite Hip, Hmac, Hnip, Hnmac, Hex, Hnex in Hr.
  clearbody r ip_seen mac_seen. clear Hip Hmac Hnip Hnmac Hex Hnex.
  split_and!;
    [ | | | | | | apply match_ip_in_devices_Some | apply match_mac_in_devices_Some ];
    destruct Hr as [[-> ?]|[? [(-> & ? & ?)|[(-> & ? & ?)|[(-> & ? & ?)|(-> & ? & ?)]]]]];
    intuition (try lia; try congruence).
Qed.


(** ** Printing *)

Lemma when_verbose_said {V} verbose t (w : World V) :
  when_verbose verbose (parse_unix t) w = (said verbose (localtime w) t, w).
Proof.
  unfold when_verbose, said, parse_unix, ret.
  case_decide; [|done]. by destruct (localtime w t).
Qed.

Lemma said_quiet p t : said 0 p t = Ok ().
Proof. done. Qed.

Lemma said_speakable verbose (w : FWorld) fav :
  speakable verbose w fav → said verbose (localtime w) (lastonline_of fav) = Ok ().
Proof.
  unfold said. intros [-> | ->]; [done |]. by case_decide.
Qed.

Lemma said_printable verbose (w : FWorld) t :
  verbose = 0 ∨ localtime w t = None → said verbose (localtime w) t = Ok ().
Proof.
  unfold said. intros [-> | ->]; [done |]. by case_decide.
Qed.

Lemma speakable_platform verbose (w w' : FWorld) fav :
  localtime w' = localtime w → speakable verbose w fav → speakable verbose w' fav.
Proof. unfold speakable. by intros ->. Qed.

Lemma listable_platform (w w' : FWorld) fav :
  localtime w' = localtime w → listable w fav → listable w' fav.
Proof. unfold listable. by intros ->. Qed.

Lemma show_favourite_world fav (w : FWorld) :
  ∃ r, show_favourite fav w = (r, w) ∧ (listable w fav ↔ r = Ok ()).
Proof.
  unfold show_favourite, listable.
  destruct (f_last fav) as [t|].
  - unfold bind, parse_unix, char_at, ret, raise.
    destruct (localtime w t) as [e|] eqn:Ht.
    + eexists. split; [done |]. split; [|done].
      intros (t' & [= <-] & Ht' & _). congruence.
    + destruct (f_addr fav).1 as [|c0 [|c1 s]]; simpl;
        (eexists; split; [done |]); (split; [|try done]).
      * intros (? & _ & _ & Hlen). simpl in Hlen. lia.
      * intros (? & _ & _ & Hlen). simpl in Hlen. lia.
      * done.
      * intros _. exists t. split_and!; [done | done | lia].
  - eexists. split; [done |]. split; [|done]. by intros (? & [=] & _).
Qed.

Lemma show_favourites_world favourites (w : FWorld) :
  ∃ r, show_favourites favourites w = (r, w) ∧
       (Forall (listable w) favourites ↔ r = Ok ()).
Proof.
  induction favourites as [|fav rest IH]; simpl.
  - exists (Ok ()). split; [done |]. split; [done | constructor].
  - unfold bind.
    destruct (show_favourite_world fav w) as (r1 & -> & H1).
    destruct r1 as [u|e]; [destruct u |].
    + destruct IH as (r & -> & H). exists r. split; [done |].
      rewrite Forall_cons, H. split; [by intros [_ ?] |].
      intros ->. split; [by apply H1 | done].
    + eexists. split; [done |]. split; [|done].
      intros [Hfav _]%Forall_cons. by apply H1 in Hfav.
Qed.

(** ** Loading the favourites *)

Lemma load_world {V} key file (w : World V) :
  load key file w = (Ok (disk w !! file ≫= (λ data, data !! key)), w).
Proof.
  unfold load, bind, read_file, ret. by destruct (disk w !! file).
Qed.

Lemma load_all_world {V} file (w : World V) :
  load_all file w = (Ok (default ∅ (disk w !! file)), w).
Proof.
  unfold load_all, bind, read_file, ret. by destruct (disk w !! file).
Qed.

(** [load_favourites] leaves the world as it is; it returns the stored
    list, empty when there is none, unless the listing raises. *)
Lemma load_favourites_world verbose key file (w : FWorld) :
  let favourites := default [] (stored key file w) in
  ∃ r,
    load_favourites verbose key file w = (r, w) ∧
    (listable_all verbose w favourites → r = Ok favourites) ∧
    (∀ l, r = Ok l → l = favourites ∧ listable_all verbose w favourites).
Proof.
  intros favourites. unfold load_favourites, bind at 1.
  rewrite load_world. fold (stored key file w).
  unfold favourites, listable_all.
  destruct (stored key file w) as [l|]; simpl.
  - unfold bind, when_verbose. case_decide as Hv.
    + destruct (show_favourites_world l w) as (r & -> & Hr).
      destruct r as [u|e]; [destruct u |].
      * eexists. split; [done |]. split; [done |].
        intros ? [= <-]. split; [done |]. right. by apply Hr.
      * eexists. split; [done |]. split; [|done].
        intros [?|Hl]; [done |]. by apply Hr in Hl.
    + eexists. split; [done |]. split; [done |].
      intros ? [= <-]. split; [done | by left].
  - eexists. split; [done |]. split; [done |].
    intros ? [= <-]. split; [done |]. right. constructor.
Qed.

Lemma load_favourites_stored verbose key file (w : FWorld) :
  listable_all verbose w (default [] (stored key file w)) →
  load_favourites verbose key file w = (Ok (default [] (stored key file w)), w).
Proof.
  intros H. destruct (load_favourites_world verbose key file w) as (r & -> & Hr & _).
  by rewrite (Hr H).
Qed.

(** ** One favourite: the body of the loop, code by code *)

Lemma test_favourite_not_found verbose devices now timeout online new fav (w : FWorld) :
  classify devices fav = 0 →
  test_favourite verbose devices now timeout (online, new) fav w =
    match said verbose (localtime w) (lastonline_of fav) with
    | Ok _ =>
        (Ok (if truthy (network w (trace w) (fav_ip fav) timeout)
             then (online ++ [fav],
                   new ++ [fav3 (f_name fav) (fav_ip fav, fav_mac fav) now])
             else (online, new ++ [fav])),
         emit (EvArp (fav_ip fav) timeout) w)
    | Raise e => (Raise e, emit (EvArp (fav_ip fav) timeout) w)
    end.
Proof.
  unfold classify, fav_ip, fav_mac, test_favourite. intros ->. simpl.
  unfold bind at 1 2. unfold send_ARP.
  destruct (truthy _); simpl; unfold bind; rewrite when_verbose_said; simpl;
    by destruct (said _ _ _).
Qed.

Lemma test_favourite_ip_changed verbose devices now timeout online new fav (w : FWorld) :
  classify devices fav = 1 →
  test_favourite verbose devices now timeout (online, new) fav w = (Raise TypeError, w).
Proof.
  unfold classify, fav_ip, fav_mac. intros H.
  destruct (match_in_devices_inv _ _ _ _ H)
    as [[? ?]|[_ [(? & _)|[(? & _)|[(_ & Hip & _)|(? & _)]]]]]; try lia.
  unfold test_favourite. rewrite H, Hip. reflexivity.
Qed.

Lemma test_favourite_mac_changed verbose devices now timeout online new fav (w : FWorld) :
  classify devices fav = 2 →
  test_favourite verbose devices now timeout (online, new) fav w = (Raise TypeError, w).
Proof.
  unfold classify, fav_ip, fav_mac. intros H.
  destruct (match_in_devices_inv _ _ _ _ H)
    as [[? ?]|[_ [(? & _)|[(_ & _ & Hmac)|[(? & _)|(? & _)]]]]]; try lia.
  unfold test_favourite. rewrite H, Hmac. reflexivity.
Qed.

Lemma test_favourite_conflict verbose devices now timeout online new fav (w : FWorld) :
  classify devices fav = 3 →
  ∃ d_mac d_ip,
    match_mac_in_devices (fav_mac fav) devices = Some d_mac ∧
    match_ip_in_devices (fav_ip fav) devices = Some d_ip ∧
    test_favourite verbose devices now timeout (online, new) fav w =
      match said verbose (localtime w) (lastonline_of fav) with
      | Ok _ =>
          (Ok (online ++ [fav3 (f_name fav) (d_mac.1, fav_mac fav) (lastonline_of fav)],
               new ++ [fav3 (f_name fav) (d_mac.1, fav_mac fav) now;
                       fav3 (f_name fav +:+ "_CONFLICT_OLDIP_NEWMAC")
                            (fav_ip fav, d_ip.2) now]),
           w)
      | Raise e => (Raise e, w)
      end.
Proof.
  unfold classify, fav_ip, fav_mac. intros H.
  destruct (match_in_devices_inv _ _ _ _ H)
    as [[? ?]|[_ [(_ & [d_ip Hip] & [d_mac Hmac])|[(? & _)|[(? & _)|(? & _)]]]]];
    try lia.
  exists d_mac, d_ip. split_and!; [done | done |].
  unfold test_favourite. rewrite H, Hip, Hmac. simpl.
  unfold bind. simpl. rewrite when_verbose_said. by destruct (said _ _ _).
Qed.

Lemma test_favourite_full_match verbose devices now timeout online new fav (w : FWorld) :
  classify devices fav = 4 →
  test_favourite verbose devices now timeout (online, new) fav w =
    match said verbose (localtime w) (lastonline_of fav) with
    | Ok _ =>
        (Ok (online ++ [fav],
             new ++ [fav3 (f_name fav) (fav_ip fav, fav_mac fav) now]),
         w)
    | Raise e => (Raise e, w)
    end.
Proof.
  unfold classify, fav_ip, fav_mac, test_favourite. intros ->. simpl.
  unfold bind. simpl. rewrite when_verbose_said. by destruct (said _ _ _).
Qed.

Lemma classify_cases devices fav :
  classify devices fav = 0 ∨ classify devices fav = 1 ∨ classify devices fav = 2 ∨
  classify devices fav = 3 ∨ classify devices fav = 4.
Proof.
  unfold classify.
  destruct (match_in_devices_inv (fav_ip fav) (fav_mac fav) devices _ eq_refl)
    as [[? ?]|[_ [(? & _)|[(? & _)|[(? & _)|(? & _)]]]]]; auto.
Qed.

(** ** The loop and the pass *)

Lemma probes_only_refl (w : FWorld) : probes_only w w.
Proof.
  split_and!; [done | done | done |]. exists []. by rewrite app_nil_r.
Qed.

Lemma probes_only_trans (w1 w2 w3 : FWorld) :
  probes_only w1 w2 → probes_only w2 w3 → probes_only w1 w3.
Proof.
  intros (Hd1 & Hn1 & Hp1 & e1 & Ht1 & He1) (Hd2 & Hn2 & Hp2 & e2 & Ht2 & He2).
  split_and!; [congruence | congruence | congruence |].
  exists (e1 ++ e2). split.
  - by rewrite Ht2, Ht1, app_assoc.
  - by apply Forall_app.
Qed.

Lemma probes_only_emit (w : FWorld) ip timeout :
  probes_only w (emit (EvArp ip timeout) w).
Proof.
  split_and!; [done | done | done |]. exists [EvArp ip timeout].
  split; [done | by repeat constructor].
Qed.

(** The body of the loop raises TypeError on a moved favourite and leaves
    the world as it was; on any other it sends requests only, and
    succeeds when its message can be printed. *)
Lemma test_favourite_cases verbose devices now timeout acc fav (w : FWorld) :
  (moved devices fav ∧
   test_favourite verbose devices now timeout acc fav w = (Raise TypeError, w)) ∨
  (¬ moved devices fav ∧
   ∃ r w', test_favourite verbose devices now timeout acc fav w = (r, w') ∧
           probes_only w w' ∧
           (speakable verbose w fav → ∃ acc', r = Ok acc')).
Proof.
  destruct acc as [online new]. unfold moved, IP_CHANGED, MAC_CHANGED.
  destruct (classify_cases devices fav) as [H|[H|[H|[H|H]]]].
  - right. split; [lia |]. rewrite (test_favourite_not_found _ _ _ _ _ _ _ _ H).
    destruct (said _ _ _) eqn:Hs.
    + eexists _, _. split_and!; [done | apply probes_only_emit | eauto].
    + eexists _, _. split_and!; [done | apply probes_only_emit |].
      intros Hp%said_speakable. congruence.
  - left. split; [auto |]. by apply test_favourite_ip_changed.
  - left. split; [auto |]. by apply test_favourite_mac_changed.
  - right. split; [lia |].
    destruct (test_favourite_conflict verbose devices now timeout online new fav w H)
      as (? & ? & _ & _ & ->).
    destruct (said _ _ _) eqn:Hs.
    + eexists _, _. split_and!; [done | apply probes_only_refl | eauto].
    + eexists _, _. split_and!; [done | apply probes_only_refl |].
      intros Hp%said_speakable. congruence.
  - right. split; [lia |]. rewrite (test_favourite_full_match _ _ _ _ _ _ _ _ H).
    destruct (said _ _ _) eqn:Hs.
    + eexists _, _. split_and!; [done | apply probes_only_refl | eauto].
    + eexists _, _. split_and!; [done | apply probes_only_refl |].
      intros Hp%said_speakable. congruence.
Qed.

Lemma for_favourites_world verbose devices now timeout favourites :
  ∀ acc (w : FWorld),
    probes_only w (for_favourites verbose devices now timeout favourites acc w).2.
Proof.
  induction favourites as [|fav rest IH]; intros acc w; simpl.
  - apply probes_only_refl.
  - unfold bind.
    destruct (test_favourite_cases verbose devices now timeout acc fav w)
      as [[_ ->]|[_ (r & w' & -> & Hw & _)]]; simpl.
    + apply probes_only_refl.
    + destruct r as [acc'|e]; [|exact Hw].
      eapply probes_only_trans; [exact Hw | apply IH].
Qed.

Lemma for_favourites_raises verbose devices now timeout favourites :
  Exists (moved devices) favourites →
  ∀ acc (w : FWorld),
    ∃ e, (for_favourites verbose devices now timeout favourites acc w).1 = Raise e ∧
         (Forall (speakable verbose w) favourites → e = TypeError).
Proof.
  induction favourites as [|fav rest IH]; intros Hex acc w; simpl.
  - by apply Exists_nil in Hex.
  - unfold bind.
    destruct (test_favourite_cases verbose devices now timeout acc fav w)
      as [[_ ->]|[Hok (r & w' & -> & Hw & Hr)]]; simpl; [by eexists |].
    apply Exists_cons in Hex as [?|Hex]; [done |].
    destruct r as [acc'|e].
    + destruct (IH Hex acc' w') as (e & He & Hty). exists e. split; [done |].
      intros [_ Hall]%Forall_cons. apply Hty.
      eapply Forall_impl; [exact Hall |]. intros f. apply speakable_platform, Hw.
    + exists e. split; [done |]. intros [Hfav _]%Forall_cons.
      by destruct (Hr Hfav).
Qed.

Lemma for_favourites_completes verbose devices now timeout favourites :
  Forall (λ fav, ¬ moved devices fav) favourites →
  ∀ acc (w : FWorld),
    Forall (speakable verbose w) favourites →
    ∃ acc', (for_favourites verbose devices now timeout favourites acc w).1 = Ok acc'.
Proof.
  induction favourites as [|fav rest IH]; intros Hall acc w Hsp; simpl.
  - by exists acc.
  - apply Forall_cons in Hall as [Hfav Hall]. apply Forall_cons in Hsp as [Hs Hsp].
    unfold bind.
    destruct (test_favourite_cases verbose devices now timeout acc fav w)
      as [[? _]|[_ (r & w' & -> & Hw & Hr)]]; [done |].
    destruct (Hr Hs) as [acc' ->]. apply IH; [done |].
    eapply Forall_impl; [exact Hsp |]. intros f. apply speakable_platform, Hw.
Qed.

(** The pass with both lists given: the loop, then one [save]. *)
Lemma test_favourites_given verbose favourites devices now timeout (w : FWorld) :
  test_favourites verbose (Some favourites) (Some devices) now timeout w =
    match for_favourites verbose devices now timeout favourites ([], []) w with
    | (Ok (online, new_favourites), w') =>
        (Ok online, (save _MAIN_LIST new_favourites _DEFAULT_FILE w').2)
    | (Raise e, w') => (Raise e, w')
    end.
Proof.
  unfold test_favourites, bind, ret; simpl.
  destruct (for_favourites _ _ _ _ _ _ _) as [[[online new]|e] w']; reflexivity.
Qed.

Lemma save_world {V} key (value : V) file (w : World V) :
  save key value file w =
    (Ok (), mkWorld (<[file := <[key := value]> (default ∅ (disk w !! file))]> (disk w))
                    (network w) (localtime w) (trace w ++ [EvWrite file])).
Proof.
  unfold save, bind, read_file, write_file. by destruct (disk w !! file).
Qed.

Lemma stored_save key value file (w : FWorld) :
  stored key file (save key value file w).2 = Some value.
Proof.
  rewrite save_world. unfold stored; simpl.
  rewrite lookup_insert_eq; simpl. by rewrite lookup_insert_eq.
Qed.

(** X14. What does hold of a pass: when no favourite is moved and the
    message about each can be printed (the pass is quiet, or the platform
    formats its timestamp), the pass completes, and its one write, of the
    list the loop built, is the last thing it does; before it the trace
    gains ARP requests only. *)
Lemma test_favourites_completes verbose favourites devices now timeout (w : FWorld) :
  Forall (λ fav, ¬ moved devices fav) favourites →
  Forall (speakable verbose w) favourites →
  ∃ online new_favourites w' evs,
    test_favourites verbose (Some favourites) (Some devices) now timeout w
      = (Ok online, w') ∧
    (for_favourites verbose devices now timeout favourites ([], []) w).1
      = Ok (online, new_favourites) ∧
    stored _MAIN_LIST _DEFAULT_FILE w' = Some new_favourites ∧
    trace w' = trace w ++ evs ++ [EvWrite _DEFAULT_FILE] ∧
    Forall (λ ev, is_arp ev = true) evs.
Proof.
  intros Hall Hsp. rewrite test_favourites_given.
  destruct (for_favourites_completes verbose devices now timeout favourites Hall
              ([], []) w Hsp) as [[online new] Hacc].
  pose proof (for_favourites_world verbose devices now timeout favourites ([], []) w)
    as (_ & _ & _ & evs & Htr & Hevs).
  destruct (for_favourites _ _ _ _ _ _ _) as [r w1]; simpl in *. subst r.
  exists online, new, (save _MAIN_LIST new _DEFAULT_FILE w1).2, evs.
  split_and!; [done | done | apply stored_save | | done].
  rewrite save_world; simpl. by rewrite Htr, app_assoc.
Qed.

(** C1. A favourites list that contains a moved favourite (code 1 or
    code 2 of [match_in_devices]) makes the pass raise, at any
    verbosity: it does not run to completion and writes nothing, the
    files are as before and the trace gained ARP requests only.  The
    exception is the TypeError of the moved favourite when the pass is
    quiet or the platform formats the timestamps of the favourites. *)
Theorem test_favourites_raises_on_moved verbose favourites devices now timeout
    (w : FWorld) :
  Exists (moved devices) favourites →
  ∃ e w',
    test_favourites verbose (Some favourites) (Some devices) now timeout w
      = (Raise e, w') ∧
    probes_only w w' ∧
    (verbose = 0 ∨ Forall (λ fav, localtime w (lastonline_of fav) = None) favourites →
     e = TypeError).
Proof.
  intros Hex. rewrite test_favourites_given.
  destruct (for_favourites_raises verbose devices now timeout favourites Hex ([], []) w)
    as (e & Hr & Hty).
  pose proof (for_favourites_world verbose devices now timeout favourites ([], []) w) as Hw.
  destruct (for_favourites _ _ _ _ _ _ _) as [r w1]; simpl in *. subst r.
  exists e, w1. split_and!; [done | done |].
  intros Hp. apply Hty. destruct Hp as [->|Hp].
  - apply Forall_forall. intros f _. by left.
  - eapply Forall_impl; [exact Hp |]. intros f ?. by right.
Qed.

Lemma test_favourites_raises_on_moved_witness :
  Exists (moved lan_nas_printer) [nas; printer] ∧
  ∃ w', test_favourites 1 (Some [nas; printer]) (Some lan_nas_printer) 2000 2 w_init
          = (Raise TypeError, w') ∧
        probes_only w_init w'.
Proof.
  assert (H : Exists (moved lan_nas_printer) [nas; printer]).
  { apply Exists_cons_tl, Exists_cons_hd. left. vm_compute. reflexivity. }
  split; [exact H |].
  destruct (test_favourites_raises_on_moved 1 [nas; printer] lan_nas_printer 2000 2
              w_init H) as (e & w' & Hrun & Hw & He).
  rewrite He in Hrun.
  - exists w'. split; [exact Hrun | exact Hw].
  - right. repeat constructor.
Defined.

(** ** The five codes, one favourite at a time *)

(** C2. A favourite with code 1 (IP changed: no device has its address,
    the first device with its hardware address is elsewhere) is not
    reported and not rewritten: at any verbosity the loop body subscripts
    the failed address lookup and raises TypeError, and so does the pass
    over that favourite alone, leaving the world untouched. *)
Theorem ip_moved_favourite_raises verbose devices now timeout online new fav
    (w : FWorld) :
  classify devices fav = IP_CHANGED →
  match_ip_in_devices (fav_ip fav) devices = None ∧
  (∃ newip, match_mac_in_devices (fav_mac fav) devices = Some (newip, fav_mac fav)
            ∧ newip ≠ fav_ip fav) ∧
  test_favourite verbose devices now timeout (online, new) fav w = (Raise TypeError, w) ∧
  test_favourites verbose (Some [fav]) (Some devices) now timeout w
    = (Raise TypeError, w).
Proof.
  unfold IP_CHANGED. intros H.
  pose proof (test_favourite_ip_changed verbose devices now timeout) as Hstep.
  unfold classify in H.
  destruct (match_in_devices_inv _ _ _ _ H)
    as [[? ?]|[_ [(? & _)|[(? & _)|[(_ & Hip & [[i m] Hmac])|(? & _)]]]]]; try lia.
  split_and!.
  - exact Hip.
  - pose proof Hmac as Hd%match_mac_in_devices_Some%first_with_elem.
    destruct Hd as [Hin Hm]; simpl in Hm; subst m.
    exists i. split; [done |]. intros ->.
    by apply (proj1 (match_ip_in_devices_None _ _) Hip _ Hin).
  - by apply Hstep.
  - rewrite test_favourites_given. cbn [for_favourites]. unfold bind.
    by rewrite (Hstep [] [] fav w H).
Qed.

Lemma ip_moved_favourite_raises_witness :
  classify lan_printer printer = IP_CHANGED ∧
  test_favourites 1 (Some [printer]) (Some lan_printer) 2000 2 w_init
    = (Raise TypeError, w_init).
Proof.
  assert (H : classify lan_printer printer = IP_CHANGED) by (vm_compute; reflexivity).
  split; [exact H |].
  exact (proj2 (proj2 (proj2
    (ip_moved_favourite_raises 1 lan_printer 2000 2 [] [] printer w_init H)))).
Defined.

(** C3. A favourite with code 2 (MAC changed: the first device at its
    address has another hardware address, and no device has its own) is
    not carried into the new list: at any verbosity the loop body
    subscripts the failed hardware-address lookup and raises TypeError,
    and so does the pass over that favourite alone, leaving the world
    untouched. *)
Theorem mac_moved_favourite_raises verbose devices now timeout online new fav
    (w : FWorld) :
  classify devices fav = MAC_CHANGED →
  match_mac_in_devices (fav_mac fav) devices = None ∧
  (∃ newmac, match_ip_in_devices (fav_ip fav) devices = Some (fav_ip fav, newmac)
             ∧ newmac ≠ fav_mac fav) ∧
  test_favourite verbose devices now timeout (online, new) fav w = (Raise TypeError, w) ∧
  test_favourites verbose (Some [fav]) (Some devices) now timeout w
    = (Raise TypeError, w).
Proof.
  unfold MAC_CHANGED. intros H.
  pose proof (test_favourite_mac_changed verbose devices now timeout) as Hstep.
  unfold classify in H.
  destruct (match_in_devices_inv _ _ _ _ H)
    as [[? ?]|[_ [(? & _)|[(_ & [[i m] Hip] & Hmac)|[(? & _)|(? & _)]]]]]; try lia.
  split_and!.
  - exact Hmac.
  - pose proof Hip as Hd%match_ip_in_devices_Some%first_with_elem.
    destruct Hd as [Hin Hi]; simpl in Hi; subst i.
    exists m. split; [done |]. intros ->.
    by apply (proj1 (match_mac_in_devices_None _ _) Hmac _ Hin).
  - by apply Hstep.
  - rewrite test_favourites_given. cbn [for_favourites]. unfold bind.
    by rewrite (Hstep [] [] fav w H).
Qed.

Lemma mac_moved_favourite_raises_witness :
  classify lan_tv tv = MAC_CHANGED ∧
  test_favourites 1 (Some [tv]) (Some lan_tv) 2000 2 w_init
    = (Raise TypeError, w_init).
Proof.
  assert (H : classify lan_tv tv = MAC_CHANGED) by (vm_compute; reflexivity).
  split; [exact H |].
  exact (proj2 (proj2 (proj2
    (mac_moved_favourite_raises 1 lan_tv 2000 2 [] [] tv w_init H)))).
Defined.

(** ** A favourite in the middle of a pass *)

Lemma for_favourites_app verbose devices now timeout l1 l2 acc (w : FWorld) :
  for_favourites verbose devices now timeout (l1 ++ l2) acc w =
    match for_favourites verbose devices now timeout l1 acc w with
    | (Ok acc1, w1) => for_favourites verbose devices now timeout l2 acc1 w1
    | (Raise e, w1) => (Raise e, w1)
    end.
Proof.
  revert acc w. induction l1 as [|fav rest IH]; intros acc w; [done |].
  cbn [app for_favourites]. unfold bind.
  destruct (test_favourite _ _ _ _ _ _ _) as [[acc'|e] w']; [apply IH | done].
Qed.

(** What one favourite adds to the two lists when the body succeeds. *)
Lemma test_favourite_adds verbose devices now timeout online new fav (w : FWorld)
    online' new' w' :
  test_favourite verbose devices now timeout (online, new) fav w
    = (Ok (online', new'), w') →
  ∃ o n,
    online' = online ++ o ∧ new' = new ++ n ∧
    f_name <$> n = names_written devices fav ∧
    identity <$> o `sublist_of` [identity fav].
Proof.
  intros Hrun. unfold names_written, CONFLICT.
  destruct (classify_cases devices fav) as [H|[H|[H|[H|H]]]].
  - rewrite (test_favourite_not_found _ _ _ _ _ _ _ _ H) in Hrun.
    rewrite H. cbn [decide]. destruct (said _ _ _); [|done].
    destruct (truthy _); injection Hrun as <- <- <-.
    + eexists [fav], [_]. split_and!; [done | done | done | done].
    + eexists [], [fav]. split_and!; [by rewrite app_nil_r | done | done |].
      apply sublist_nil_l.
  - by rewrite (test_favourite_ip_changed _ _ _ _ _ _ _ _ H) in Hrun.
  - by rewrite (test_favourite_mac_changed _ _ _ _ _ _ _ _ H) in Hrun.
  - destruct (test_favourite_conflict verbose devices now timeout online new fav w H)
      as (d_mac & d_ip & _ & _ & Hstep).
    rewrite Hstep in Hrun. destruct (said _ _ _); [|done].
    injection Hrun as <- <- <-.
    rewrite H. eexists [_], [_; _]. split_and!; [done | done | done | done].
  - rewrite (test_favourite_full_match _ _ _ _ _ _ _ _ H) in Hrun.
    destruct (said _ _ _); [|done].
    injection Hrun as <- <- <-. rewrite H.
    eexists [fav], [_]. split_and!; [done | done | done | done].
Qed.

Lemma for_favourites_adds verbose devices now timeout favourites :
  ∀ online new (w : FWorld) online' new' w',
    for_favourites verbose devices now timeout favourites (online, new) w
      = (Ok (online', new'), w') →
    ∃ o n,
      online' = online ++ o ∧ new' = new ++ n ∧
      f_name <$> n = favourites ≫= names_written devices ∧
      identity <$> o `sublist_of` identity <$> favourites.
Proof.
  induction favourites as [|fav rest IH]; intros online new w online' new' w' Hrun.
  - injection Hrun as <- <- <-. exists [], [].
    split_and!; [by rewrite app_nil_r | by rewrite app_nil_r | done | done].
  - cbn [for_favourites] in Hrun. unfold bind in Hrun.
    destruct (test_favourite verbose devices now timeout (online, new) fav w)
      as [[[online1 new1]|e] w1] eqn:Hstep; [|done].
    apply test_favourite_adds in Hstep as (o1 & n1 & -> & -> & Hn1 & Ho1).
    apply IH in Hrun as (o2 & n2 & -> & -> & Hn2 & Ho2).
    exists (o1 ++ o2), (n1 ++ n2).
    split_and!; [by rewrite app_assoc | by rewrite app_assoc | |].
    + by rewrite fmap_app, bind_cons, Hn1, Hn2.
    + rewrite fmap_app, fmap_cons. by apply (sublist_app _ [_]).
Qed.

(** A favourite after which the loop, having handled [before], holds
    [o] more in the report and [n] more in the new list: the pass that
    ends with it reports and stores just that, and any pass that goes on
    and completes has it at that place of its report and of what it
    stores. *)
Lemma favourite_in_pass verbose devices now timeout before fav o1 n1 o n
    (w w1 w2 : FWorld) :
  for_favourites verbose devices now timeout before ([], []) w = (Ok (o1, n1), w1) →
  test_favourite verbose devices now timeout (o1, n1) fav w1
    = (Ok (o1 ++ o, n1 ++ n), w2) →
  (∃ w', test_favourites verbose (Some (before ++ [fav])) (Some devices) now timeout w
           = (Ok (o1 ++ o), w') ∧
         stored _MAIN_LIST _DEFAULT_FILE w' = Some (n1 ++ n) ∧
         trace w' = trace w2 ++ [EvWrite _DEFAULT_FILE]) ∧
  (∀ after online w',
     test_favourites verbose (Some (before ++ fav :: after)) (Some devices)
       now timeout w = (Ok online, w') →
     ∃ o3 n3, online = o1 ++ o ++ o3 ∧
              stored _MAIN_LIST _DEFAULT_FILE w' = Some (n1 ++ n ++ n3)).
Proof.
  intros Hbefore Hstep. split.
  - eexists. rewrite test_favourites_given, for_favourites_app, Hbefore.
    cbn [for_favourites]. unfold bind. rewrite Hstep. cbv beta iota. unfold ret.
    split_and!; [reflexivity | apply stored_save | by rewrite save_world].
  - intros after online w'.
    rewrite test_favourites_given, for_favourites_app, Hbefore.
    cbn [for_favourites]. unfold bind. rewrite Hstep.
    destruct (for_favourites verbose devices now timeout after (o1 ++ o, n1 ++ n) w2)
      as [[[online3 new3]|e] w3] eqn:Hafter; [|done].
    intros [= <- <-].
    apply for_favourites_adds in Hafter as (o3 & n3 & -> & -> & _).
    exists o3, n3. split; [by rewrite app_assoc |].
    rewrite <- app_assoc.
    exact (stored_save _MAIN_LIST (n1 ++ n ++ n3) _DEFAULT_FILE w3).
Qed.

Lemma for_favourites_platform verbose devices now timeout favourites acc
    (w : FWorld) r w1 :
  for_favourites verbose devices now timeout favourites acc w = (r, w1) →
  localtime w1 = localtime w ∧ network w1 = network w.
Proof.
  intros Hrun.
  pose proof (for_favourites_world verbose devices now timeout favourites acc w)
    as (_ & Hn & Hp & _).
  rewrite Hrun in Hn, Hp. done.
Qed.

(** C5, as amended.  A favourite with code 3 (conflict) whose message can
    be printed (the pass is quiet, or the platform formats its
    timestamp), met after the favourites [before] have been handled, is
    reported at the address [newip] of the first device with its
    hardware address, with the timestamp it had (0 when the record has
    none), and gets two records in the new list: itself at [newip]
    stamped [now], and a record named with the suffix
    _CONFLICT_OLDIP_NEWMAC holding its old address and the hardware
    address [newmac] of the first device there, stamped [now].  The pass
    that ends with it reports and persists exactly that, with no request
    sent for it, and so does, at that place, any pass that goes on and
    completes. *)
Theorem conflict_favourite_split verbose devices now timeout before fav o1 n1
    (w w1 : FWorld) :
  classify devices fav = CONFLICT →
  speakable verbose w fav →
  for_favourites verbose devices now timeout before ([], []) w = (Ok (o1, n1), w1) →
  ∃ newip newmac,
    first_with (λ d, d.2 = fav_mac fav) (newip, fav_mac fav) devices ∧
    first_with (λ d, d.1 = fav_ip fav) (fav_ip fav, newmac) devices ∧
    newip ≠ fav_ip fav ∧ newmac ≠ fav_mac fav ∧
    let moved_to := fav3 (f_name fav) (newip, fav_mac fav) now in
    let left_behind := fav3 (f_name fav +:+ "_CONFLICT_OLDIP_NEWMAC")
                            (fav_ip fav, newmac) now in
    let seen := fav3 (f_name fav) (newip, fav_mac fav) (lastonline_of fav) in
    test_favourite verbose devices now timeout (o1, n1) fav w1
      = (Ok (o1 ++ [seen], n1 ++ [moved_to; left_behind]), w1) ∧
    (∃ w', test_favourites verbose (Some (before ++ [fav])) (Some devices) now timeout w
             = (Ok (o1 ++ [seen]), w') ∧
           stored _MAIN_LIST _DEFAULT_FILE w' = Some (n1 ++ [moved_to; left_behind]) ∧
           trace w' = trace w1 ++ [EvWrite _DEFAULT_FILE]) ∧
    (∀ after online w',
       test_favourites verbose (Some (before ++ fav :: after)) (Some devices)
         now timeout w = (Ok online, w') →
       ∃ o3 n3, online = o1 ++ [seen] ++ o3 ∧
                stored _MAIN_LIST _DEFAULT_FILE w'
                  = Some (n1 ++ [moved_to; left_behind] ++ n3)).
Proof.
  intros H Hsp Hbefore. unfold CONFLICT in H.
  assert (Hnot : (fav_ip fav, fav_mac fav) ∉ devices).
  { intros Hin%full_match_elem. unfold classify, match_in_devices in H.
    rewrite Hin in H. lia. }
  destruct (for_favourites_platform _ _ _ _ _ _ _ _ _ Hbefore) as [Hp _].
  apply (speakable_platform _ _ w1 _ Hp), said_speakable in Hsp.
  destruct (test_favourite_conflict verbose devices now timeout o1 n1 fav w1 H)
    as ([i m] & [i' m'] & Hmac & Hip & Hrun).
  rewrite Hsp in Hrun.
  pose proof Hmac as [Hin Hm]%match_mac_in_devices_Some%first_with_elem.
  pose proof Hip as [Hin' Hi]%match_ip_in_devices_Some%first_with_elem.
  simpl in Hm, Hi. subst m i'. cbn [fst snd] in Hrun.
  exists i, m'.
  split; [by apply match_mac_in_devices_Some |].
  split; [by apply match_ip_in_devices_Some |].
  split; [by intros -> |]. split; [by intros -> |].
  intros moved_to left_behind seen. split_and!.
  - exact Hrun.
  - exact (proj1 (favourite_in_pass _ _ _ _ _ _ _ _ _ _ _ _ _ Hbefore Hrun)).
  - exact (proj2 (favourite_in_pass _ _ _ _ _ _ _ _ _ _ _ _ _ Hbefore Hrun)).
Qed.

Lemma conflict_favourite_split_witness :
  classify lan_phone phone = CONFLICT ∧
  speakable 1 w_init phone ∧
  ∃ w', test_favourites 1 (Some [phone]) (Some lan_phone) 2000 2 w_init
          = (Ok [fav3 "phone" ("192.168.178.77", "11:22:33:44:55:66") 500], w') ∧
        stored _MAIN_LIST _DEFAULT_FILE w'
          = Some [fav3 "phone" ("192.168.178.77", "11:22:33:44:55:66") 2000;
                  fav3 "phone_CONFLICT_OLDIP_NEWMAC"
                       ("192.168.178.20", "ff:ee:dd:cc:bb:aa") 2000].
Proof.
  assert (H : classify lan_phone phone = CONFLICT) by (vm_compute; reflexivity).
  assert (Hs : speakable 1 w_init phone) by (right; vm_compute; reflexivity).
  split_and!; [exact H | exact Hs |].
  destruct (conflict_favourite_split 1 lan_phone 2000 2 [] phone [] [] w_init w_init
              H Hs eq_refl)
    as (newip & newmac & Hmac & Hip & _ & _ & _ & (w' & Hrun & Hst & _) & _).
  apply match_mac_in_devices_Some in Hmac. apply match_ip_in_devices_Some in Hip.
  vm_compute in Hmac, Hip.
  injection Hmac as <-. injection Hip as <-.
  exists w'. split; [exact Hrun | exact Hst].
Defined.

(** C5, as stated, fails at the default verbosity on a timestamp the
    platform does not format: the pass over the conflicting phone raises
    OverflowError while printing its message, reports nothing and writes
    nothing. *)
Lemma conflict_favourite_unprintable :
  classify lan_phone phone_far = CONFLICT ∧
  let run := test_favourites __DEFAULT_VERBOSE (Some [phone_far]) (Some lan_phone)
               2000 2 w_init in
  run.1 = Raise OverflowError ∧
  trace run.2 = [] ∧
  stored _MAIN_LIST _DEFAULT_FILE run.2 = None.
Proof.
  split; [vm_compute; reflexivity |]. intros run.
  split_and!; vm_compute; reflexivity.
Qed.

(** C6, as amended.  A favourite with code 0 (not found) whose message
    can be printed (the pass is quiet, or the platform formats its
    timestamp), met after the favourites [before] have been handled,
    costs exactly one ARP request, sent to its own address.  If
    something answers, the favourite is handled as a full match is:
    reported as it is and rewritten with the timestamp [now].  If nothing
    answers, it is not reported and goes into the new list as it is,
    timestamp included.  The pass that ends with it reports and persists
    exactly that, its trace ending with the request and the write, and so
    does, at that place, any pass that goes on and completes. *)
Theorem not_found_favourite_probe verbose devices now timeout before fav o1 n1
    (w w1 : FWorld) :
  classify devices fav = NOT_FOUND →
  speakable verbose w fav →
  for_favourites verbose devices now timeout before ([], []) w = (Ok (o1, n1), w1) →
  let reply := network w1 (trace w1) (fav_ip fav) timeout in
  let refreshed := fav3 (f_name fav) (fav_ip fav, fav_mac fav) now in
  let o := if truthy reply then [fav] else [] in
  let n := if truthy reply then [refreshed] else [fav] in
  test_favourite verbose devices now timeout (o1, n1) fav w1
    = (Ok (o1 ++ o, n1 ++ n), emit (EvArp (fav_ip fav) timeout) w1) ∧
  (∃ w', test_favourites verbose (Some (before ++ [fav])) (Some devices) now timeout w
           = (Ok (o1 ++ o), w') ∧
         stored _MAIN_LIST _DEFAULT_FILE w' = Some (n1 ++ n) ∧
         trace w' = trace w1 ++ [EvArp (fav_ip fav) timeout; EvWrite _DEFAULT_FILE]) ∧
  (∀ after online w',
     test_favourites verbose (Some (before ++ fav :: after)) (Some devices)
       now timeout w = (Ok online, w') →
     ∃ o3 n3, online = o1 ++ o ++ o3 ∧
              stored _MAIN_LIST _DEFAULT_FILE w' = Some (n1 ++ n ++ n3)) ∧
  (reply ≠ [] →
   ∀ devices' (w0 : FWorld),
     classify devices' fav = FULL_MATCH → speakable verbose w0 fav →
     test_favourite verbose devices' now timeout (o1, n1) fav w0
       = (Ok (o1 ++ o, n1 ++ n), w0)).
Proof.
  intros H Hsp Hbefore reply refreshed o n. unfold NOT_FOUND, FULL_MATCH in *.
  destruct (for_favourites_platform _ _ _ _ _ _ _ _ _ Hbefore) as [Hp _].
  apply (speakable_platform _ _ w1 _ Hp), said_speakable in Hsp.
  assert (Hrun : test_favourite verbose devices now timeout (o1, n1) fav w1
                 = (Ok (o1 ++ o, n1 ++ n), emit (EvArp (fav_ip fav) timeout) w1)).
  { rewrite (test_favourite_not_found _ _ _ _ _ _ _ _ H), Hsp.
    fold reply. unfold o, n. destruct (truthy reply); [done |].
    by rewrite app_nil_r. }
  split_and!.
  - exact Hrun.
  - destruct (proj1 (favourite_in_pass _ _ _ _ _ _ _ _ _ _ _ _ _ Hbefore Hrun))
      as (w' & Hpass & Hst & Htr).
    exists w'. split_and!; [done | done |].
    rewrite Htr. cbn [emit trace]. by rewrite <- app_assoc.
  - exact (proj2 (favourite_in_pass _ _ _ _ _ _ _ _ _ _ _ _ _ Hbefore Hrun)).
  - intros Hr devices' w0 H' Hs0%said_speakable.
    rewrite (test_favourite_full_match _ _ _ _ _ _ _ _ H'), Hs0.
    unfold o, n. by destruct reply.
Qed.

Lemma not_found_favourite_probe_witness :
  classify [] laptop = NOT_FOUND ∧
  speakable 1 w_laptop laptop ∧
  (∃ w', test_favourites 1 (Some [laptop]) (Some []) 2000 2 w_laptop
           = (Ok [laptop], w') ∧
         stored _MAIN_LIST _DEFAULT_FILE w'
           = Some [fav3 "laptop" ("192.168.178.40", "aa:bb:cc:dd:ee:04") 2000] ∧
         trace w' = [EvArp "192.168.178.40" 2; EvWrite _DEFAULT_FILE]) ∧
  (∃ w', test_favourites 1 (Some [laptop]) (Some []) 2000 2 w_init = (Ok [], w') ∧
         stored _MAIN_LIST _DEFAULT_FILE w' = Some [laptop] ∧
         trace w' = [EvArp "192.168.178.40" 2; EvWrite _DEFAULT_FILE]).
Proof.
  assert (H : classify [] laptop = NOT_FOUND) by (vm_compute; reflexivity).
  assert (Hs : speakable 1 w_laptop laptop) by (right; vm_compute; reflexivity).
  assert (Hs' : speakable 1 w_init laptop) by (right; vm_compute; reflexivity).
  split_and!; [exact H | exact Hs | |].
  - exact (proj1 (proj2 (not_found_favourite_probe 1 [] 2000 2 [] laptop [] []
                           w_laptop w_laptop H Hs eq_refl))).
  - exact (proj1 (proj2 (not_found_favourite_probe 1 [] 2000 2 [] laptop [] []
                           w_init w_init H Hs' eq_refl))).
Defined.

(** C6, as stated, fails at the default verbosity on a timestamp the
    platform does not format: the request goes out, and whether the
    laptop answers or not the pass raises OverflowError while printing
    its message; nothing is reported and nothing is written, so the
    unresolved favourite does not appear in an updated list. *)
Lemma not_found_favourite_unprintable :
  classify [] laptop_far = NOT_FOUND ∧
  let silent_run := test_favourites __DEFAULT_VERBOSE (Some [laptop_far]) (Some [])
                      2000 2 w_init in
  let answered_run := test_favourites __DEFAULT_VERBOSE (Some [laptop_far]) (Some [])
                        2000 2 w_laptop in
  silent_run.1 = Raise OverflowError ∧
  trace silent_run.2 = [EvArp "192.168.178.40" 2] ∧
  stored _MAIN_LIST _DEFAULT_FILE silent_run.2 = None ∧
  answered_run.1 = Raise OverflowError ∧
  trace answered_run.2 = [EvArp "192.168.178.40" 2] ∧
  stored _MAIN_LIST _DEFAULT_FILE answered_run.2 = None.
Proof.
  split; [vm_compute; reflexivity |]. intros silent_run answered_run.
  split_and!; vm_compute; reflexivity.
Qed.

(** ** Two passes in succession *)




















(** ** Deleting a favourite *)

Lemma named_without_name name (favourites : list Fav) :
  named name (without_name name favourites) = [].
Proof.
  unfold named, without_name.
  induction favourites as [|fav rest IH]; [done |].
  rewrite filter_cons. destruct (decide (f_name fav ≠ name)) as [Hne|_]; [|done].
  rewrite filter_cons. by destruct (decide (f_name fav = name)).
Qed.

Lemma without_name_nil name (favourites : list Fav) :
  without_name name favourites = [] ↔ Forall (λ f, f_name f = name) favourites.
Proof.
  unfold without_name.
  induction favourites as [|fav rest IH]; [by split; [constructor |] |].
  rewrite filter_cons, Forall_cons.
  destruct (decide (f_name fav ≠ name)) as [Hne|Heq].
  - split; [done | by intros [? _]].
  - apply dec_stable in Heq. rewrite IH. split; [by intros ? | by intros [_ ?]].
Qed.

Lemma without_name_listable name (w : FWorld) (favourites : list Fav) :
  Forall (listable w) favourites → Forall (listable w) (without_name name favourites).
Proof.
  rewrite !Forall_forall. intros H f [_ Hin]%list_elem_of_filter. by apply H.
Qed.

Lemma listable_all_without verbose name (w w' : FWorld) favourites :
  localtime w' = localtime w →
  listable_all verbose w favourites →
  listable_all verbose w' (without_name name favourites).
Proof.
  intros Hp [?|H]; [by left | right].
  apply without_name_listable. eapply Forall_impl; [exact H |].
  intros f. by apply listable_platform.
Qed.

(** What [delete_favourite] does once the list is loaded, and when the
    listing raises. *)
Lemma delete_favourite_world verbose name key file (w : FWorld) :
  let old := default [] (stored key file w) in
  (listable_all verbose w old ∧
   delete_favourite verbose name key file w =
     if truthy old
     then (Ok true, (save key (without_name name old) file w).2)
     else (Ok false, w)) ∨
  (¬ listable_all verbose w old ∧
   ∃ e, delete_favourite verbose name key file w = (Raise e, w)).
Proof.
  intros old.
  assert (Hrun : delete_favourite verbose name key file w =
    match load_favourites verbose key file w with
    | (Ok favourites, w') =>
        (if truthy favourites
         then (save key (without_name name favourites) file ;; ret true)
         else ret false) w'
    | (Raise e, w') => (Raise e, w')
    end) by reflexivity.
  rewrite Hrun. clear Hrun.
  destruct (load_favourites_world verbose key file w) as (r & -> & Hok & Hinv).
  fold old in Hok, Hinv. destruct r as [l|e].
  - destruct (Hinv l eq_refl) as [-> Hl]. left. split; [exact Hl |].
    destruct (truthy old); [|reflexivity]. unfold bind. by rewrite save_world.
  - right. split; [|by exists e]. intros Hl. by specialize (Hok Hl).
Qed.

Lemma delete_favourite_run verbose name key file favourites (w : FWorld) :
  stored key file w = Some favourites →
  listable_all verbose w favourites →
  delete_favourite verbose name key file w =
    if truthy favourites
    then (Ok true, (save key (without_name name favourites) file w).2)
    else (Ok false, w).
Proof.
  intros Hst Hl.
  destruct (delete_favourite_world verbose name key file w) as [[_ Hrun]|[Hn _]];
    rewrite Hst in *; [exact Hrun | done].
Qed.

(** C8, as amended.  On a document with at least one record named [name],
    whose listing can be printed (the call is quiet, or every record has
    a timestamp the platform formats and an address of two characters at
    least): deleting leaves none, persists the rest with one write and
    answers True.  Deleting again at once answers by the emptiness of
    what is left: False when every record had that name, True again
    (after rewriting the same list) when records with other names
    remain. *)
Theorem delete_favourite_twice verbose name key file favourites (w : FWorld) :
  stored key file w = Some favourites →
  (0 < length (named name favourites))%nat →
  listable_all verbose w favourites →
  let remaining := without_name name favourites in
  ∃ w1 w2,
    delete_favourite verbose name key file w = (Ok true, w1) ∧
    stored key file w1 = Some remaining ∧
    named name remaining = [] ∧
    trace w1 = trace w ++ [EvWrite file] ∧
    delete_favourite verbose name key file w1 = (Ok (truthy remaining), w2) ∧
    stored key file w2 = Some remaining ∧
    (truthy remaining = false ↔ Forall (λ f, f_name f = name) favourites) ∧
    (truthy remaining = false → w2 = w1) ∧
    (truthy remaining = true → trace w2 = trace w1 ++ [EvWrite file]).
Proof.
  intros Hst Hk Hl remaining.
  assert (Hne : truthy favourites = true).
  { destruct favourites; [simpl in Hk; lia | done]. }
  pose proof (delete_favourite_run verbose name key file favourites w Hst Hl) as Hrun1.
  rewrite Hne in Hrun1. fold remaining in Hrun1.
  set (w1 := (save key remaining file w).2) in *.
  assert (Hst1 : stored key file w1 = Some remaining) by apply stored_save.
  assert (Hl1 : listable_all verbose w1 remaining).
  { apply (listable_all_without _ _ w); [|done]. unfold w1. by rewrite save_world. }
  pose proof (delete_favourite_run verbose name key file remaining w1 Hst1 Hl1) as Hrun2.
  assert (Hsame : without_name name remaining = remaining).
  { unfold remaining, without_name. rewrite list_filter_filter.
    apply list_filter_iff. intros f. tauto. }
  rewrite Hsame in Hrun2.
  exists w1, (if truthy remaining then (save key remaining file w1).2 else w1).
  split_and!; [exact Hrun1 | exact Hst1 | apply named_without_name | | | | | |].
  - unfold w1. by rewrite save_world.
  - rewrite Hrun2. by destruct (truthy remaining).
  - destruct (truthy remaining); [apply stored_save | exact Hst1].
  - rewrite <- without_name_nil. fold remaining. by destruct remaining.
  - by intros ->.
  - intros ->. by rewrite save_world.
Qed.

Lemma nas_tv_listable : listable_all 1 w_nas_tv [nas; tv].
Proof.
  right. apply Forall_cons. split.
  - exists 900. split_and!; [done | vm_compute; reflexivity | vm_compute; lia].
  - apply Forall_cons. split; [|constructor].
    exists 700. split_and!; [done | vm_compute; reflexivity | vm_compute; lia].
Qed.

Lemma delete_favourite_twice_witness :
  stored _MAIN_LIST _DEFAULT_FILE w_nas_tv = Some [nas; tv] ∧
  (0 < length (named "nas" [nas; tv]))%nat ∧
  listable_all 1 w_nas_tv [nas; tv] ∧
  ∃ w1 w2,
    delete_favourite 1 "nas" _MAIN_LIST _DEFAULT_FILE w_nas_tv = (Ok true, w1) ∧
    stored _MAIN_LIST _DEFAULT_FILE w1 = Some [tv] ∧
    delete_favourite 1 "nas" _MAIN_LIST _DEFAULT_FILE w1 = (Ok true, w2).
Proof.
  assert (H1 : stored _MAIN_LIST _DEFAULT_FILE w_nas_tv = Some [nas; tv])
    by (vm_compute; reflexivity).
  assert (H2 : (0 < length (named "nas" [nas; tv]))%nat) by (vm_compute; lia).
  pose proof nas_tv_listable as H3.
  split_and!; [exact H1 | exact H2 | exact H3 |].
  destruct (delete_favourite_twice 1 "nas" _MAIN_LIST _DEFAULT_FILE [nas; tv] w_nas_tv
              H1 H2 H3)
    as (w1 & w2 & Hrun1 & Hst1 & _ & _ & Hrun2 & _).
  exists w1, w2. split_and!; [exact Hrun1 | exact Hst1 | exact Hrun2].
Defined.

(** C8, as stated, fails when records with other names remain: with the
    nas and the tv on file, deleting the nas twice answers True both
    times. *)
Lemma delete_again_not_noop :
  stored _MAIN_LIST _DEFAULT_FILE w_nas_tv = Some [nas; tv] ∧
  (0 < length (named "nas" [nas; tv]))%nat ∧
  ¬ delete_then_noop __DEFAULT_VERBOSE "nas" _MAIN_LIST _DEFAULT_FILE w_nas_tv.
Proof.
  split_and!; [vm_compute; reflexivity | vm_compute; lia |].
  intros (w1 & w2 & Hrun1 & _ & Hrun2).
  apply (f_equal snd) in Hrun1. cbn [snd] in Hrun1. subst w1.
  apply (f_equal fst) in Hrun2. vm_compute in Hrun2. discriminate Hrun2.
Qed.

(** ** Saving a favourite *)

Lemma save_favourite_loaded verbose name ip mac lastonline key file devices
    (w : FWorld) favourites :
  load_favourites verbose key file w = (Ok favourites, w) →
  save_favourite verbose name ip mac lastonline key file devices w =
    (let* mac :=
       match mac with
       | Some mac => ret (Some mac)
       | None =>
           match devices with
           | None =>
               let* result := send_ARP ip 2 in
               let* d := first_item result in
               ret (Some d.2)
           | Some devices =>
               let* d := subscript (match_ip_in_devices ip devices) in
               ret (Some d.2)
           end
       end in
     match mac with
     | None => ret false
     | Some mac =>
         let favourites := without_name name favourites in
         when_verbose verbose (parse_unix lastonline) ;;
         let favourites := favourites ++ [fav3 name (ip, mac) lastonline] in
         save key favourites file ;;
         ret true
     end) w.
Proof.
  intros Hload. unfold save_favourite, bind at 1. by rewrite Hload.
Qed.

Lemma save_favourite_unloaded verbose name ip mac lastonline key file devices
    (w : FWorld) e :
  load_favourites verbose key file w = (Raise e, w) →
  save_favourite verbose name ip mac lastonline key file devices w = (Raise e, w).
Proof.
  intros Hload. unfold save_favourite, bind at 1. by rewrite Hload.
Qed.

(** The tail of [save_favourite] once the hardware address is known. *)
Lemma save_favourite_tail verbose name ip mac lastonline key file favourites
    (w : FWorld) :
  (when_verbose verbose (parse_unix lastonline) ;;
   save key (without_name name favourites ++ [fav3 name (ip, mac) lastonline]) file ;;
   ret true) w =
    match said verbose (localtime w) lastonline with
    | Ok _ =>
        (Ok true,
         (save key (without_name name favourites ++ [fav3 name (ip, mac) lastonline])
               file w).2)
    | Raise e => (Raise e, w)
    end.
Proof.
  unfold bind at 1. rewrite when_verbose_said.
  destruct (said _ _ _); [|done]. unfold bind, ret. by rewrite save_world.
Qed.

(** C9. When the hardware address is omitted and cannot be found, the
    operation does not answer False, at any verbosity: it raises, and
    nothing is written.  When the listing of the stored favourites can be
    printed (always, for a quiet call) the exception is the TypeError of
    the failed snapshot lookup or the IndexError of the unanswered
    request.  No call of [save_favourite] ever answers False. *)
Theorem save_favourite_unresolvable_raises verbose name ip lastonline key file devices
    (w : FWorld) :
  unresolvable ip devices w →
  (∃ e w', save_favourite verbose name ip None lastonline key file devices w
             = (Raise e, w') ∧
           probes_only w w' ∧
           (listable_all verbose w (default [] (stored key file w)) →
            e = match devices with Some _ => TypeError | None => IndexError end)) ∧
  ∀ verbose' mac' devices' (w0 : FWorld),
    (save_favourite verbose' name ip mac' lastonline key file devices' w0).1 ≠ Ok false.
Proof.
  intros Hun. split.
  - destruct (load_favourites_world verbose key file w) as (r & Hload & Hok & _).
    destruct r as [l|e].
    + rewrite (save_favourite_loaded _ _ _ _ _ _ _ _ _ _ Hload).
      destruct devices as [devices|]; simpl in Hun.
      * exists TypeError, w. unfold subscript, bind, raise. rewrite Hun.
        split_and!; [done | apply probes_only_refl | done].
      * exists IndexError, (emit (EvArp ip 2) w).
        unfold first_item, send_ARP, bind, raise. rewrite Hun.
        split_and!; [done | apply probes_only_emit | done].
    + rewrite (save_favourite_unloaded _ _ _ _ _ _ _ _ _ _ Hload).
      exists e, w. split_and!; [done | apply probes_only_refl |].
      intros Hl. by specialize (Hok Hl).
  - intros verbose' mac' devices' w0.
    destruct (load_favourites_world verbose' key file w0) as (r & Hload & _).
    destruct r as [l|e];
      [|by rewrite (save_favourite_unloaded _ _ _ _ _ _ _ _ _ _ Hload)].
    rewrite (save_favourite_loaded _ _ _ _ _ _ _ _ _ _ Hload).
    destruct mac' as [m|]; [| destruct devices' as [ds|]].
    + unfold bind at 1. unfold ret at 1. cbv beta iota.
      rewrite save_favourite_tail. by destruct (said _ _ _).
    + unfold bind at 1. unfold subscript, bind at 1.
      destruct (match_ip_in_devices ip ds); [|done].
      unfold ret at 1 2. cbv beta iota.
      rewrite save_favourite_tail. by destruct (said _ _ _).
    + unfold bind at 1. unfold bind at 1. unfold send_ARP. unfold first_item, bind at 1.
      destruct (network w0 (trace w0) ip 2); [done |].
      unfold ret at 1 2. cbv beta iota.
      rewrite save_favourite_tail. by destruct (said _ _ _).
Qed.

Lemma save_favourite_unresolvable_raises_witness :
  unresolvable "192.168.178.30" (Some lan_printer) w_nas_tv ∧
  ∃ w', save_favourite 1 "tv" "192.168.178.30" None 2000 _MAIN_LIST _DEFAULT_FILE
          (Some lan_printer) w_nas_tv = (Raise TypeError, w') ∧
        probes_only w_nas_tv w'.
Proof.
  assert (H : unresolvable "192.168.178.30" (Some lan_printer) w_nas_tv)
    by (vm_compute; reflexivity).
  split; [exact H |].
  destruct (proj1 (save_favourite_unresolvable_raises 1 "tv" "192.168.178.30" 2000
                     _MAIN_LIST _DEFAULT_FILE (Some lan_printer) w_nas_tv H))
    as (e & w' & Hrun & Hw & He).
  rewrite He in Hrun; [|exact nas_tv_listable].
  exists w'. split; [exact Hrun | exact Hw].
Defined.

(** ** The store *)

(** C10. [save] rewrites the file with the document it read, changed at
    [key] only: every other key of the document keeps its value (or its
    absence), [key] holds the new value, and the other files are as they
    were. *)
Theorem save_keeps_other_keys {V} key (value : V) file (w : World V) other :
  other ≠ key →
  let old := default ∅ (disk w !! file) in
  let w' := (save key value file w).2 in
  (save key value file w).1 = Ok () ∧
  ∃ data,
    disk w' !! file = Some data ∧
    data !! other = old !! other ∧
    data !! key = Some value ∧
    ∀ file', file' ≠ file → disk w' !! file' = disk w !! file'.
Proof.
  intros Hne old w'. unfold w'. rewrite save_world. simpl.
  split; [done |]. exists (<[key := value]> old).
  split_and!.
  - by rewrite lookup_insert_eq.
  - by rewrite lookup_insert_ne.
  - by rewrite lookup_insert_eq.
  - intros file' Hf. by rewrite lookup_insert_ne.
Qed.

Lemma save_keeps_other_keys_witness :
  "guests" ≠ _MAIN_LIST ∧
  stored "guests" _DEFAULT_FILE w_two_keys = Some [tv] ∧
  stored "guests" _DEFAULT_FILE (save _MAIN_LIST [printer] _DEFAULT_FILE w_two_keys).2
    = Some [tv] ∧
  stored _MAIN_LIST _DEFAULT_FILE (save _MAIN_LIST [printer] _DEFAULT_FILE w_two_keys).2
    = Some [printer].
Proof.
  assert (H : "guests" ≠ _MAIN_LIST) by (vm_compute; discriminate).
  split_and!; [exact H | vm_compute; reflexivity | |].
  - destruct (save_keeps_other_keys _MAIN_LIST [printer] _DEFAULT_FILE w_two_keys
                "guests" H) as (_ & data & Hd & Ho & _).
    unfold stored. rewrite Hd. simpl. rewrite Ho. vm_compute. reflexivity.
  - apply stored_save.
Defined.

Lemma stored_save_other key value file key' file' (w : FWorld) :
  (key', file') ≠ (key, file) →
  stored key' file' (save key value file w).2 = stored key' file' w.
Proof.
  intros Hne. rewrite save_world. unfold stored; simpl.
  destruct (decide (file' = file)) as [->|Hf].
  - rewrite lookup_insert_eq; simpl. rewrite lookup_insert_ne by congruence.
    by destruct (disk w !! file).
  - by rewrite lookup_insert_ne.
Qed.

Lemma test_favourites_none verbose devices now timeout (w : FWorld) :
  test_favourites verbose None devices now timeout w =
    match load_favourites (above_one verbose) _MAIN_LIST _DEFAULT_FILE w with
    | (Ok favourites, w') =>
        test_favourites verbose (Some favourites) devices now timeout w'
    | (Raise e, w') => (Raise e, w')
    end.
Proof.
  unfold test_favourites, bind at 1 3.
  by destruct (load_favourites _ _ _ _) as [[favourites|e] w'].
Qed.

(** X15. The pass writes under the favourites key of the default file
    only, whatever its arguments and its verbosity and however it ends:
    the list under any other key or in any other file is as before. *)
Lemma test_favourites_keeps_other_keys verbose favourites devices now timeout
    (w : FWorld) key file :
  (key, file) ≠ (_MAIN_LIST, _DEFAULT_FILE) →
  stored key file (test_favourites verbose favourites devices now timeout w).2
  = stored key file w.
Proof.
  intros Hne.
  assert (Hgiven : ∀ favs devs (w0 : FWorld),
    stored key file (test_favourites verbose (Some favs) (Some devs) now timeout w0).2
    = stored key file w0).
  { intros favs devs w0. rewrite test_favourites_given.
    pose proof (for_favourites_world verbose devs now timeout favs ([], []) w0)
      as (Hd & _).
    destruct (for_favourites _ _ _ _ _ _ _) as [[[online new]|e] w1]; simpl in Hd.
    - cbn [snd]. rewrite stored_save_other by done. unfold stored. by rewrite Hd.
    - cbn [snd]. unfold stored. by rewrite Hd. }
  assert (Hscan : ∀ favs (w0 : FWorld),
    test_favourites verbose (Some favs) None now timeout w0
    = test_favourites verbose (Some favs)
        (Some (network w0 (trace w0) _HOME_RANGE timeout))
        now timeout (emit (EvArp _HOME_RANGE timeout) w0)) by reflexivity.
  assert (Hsome : ∀ favs,
    stored key file (test_favourites verbose (Some favs) devices now timeout w).2
    = stored key file w).
  { intros favs. destruct devices as [devs|]; [apply Hgiven |].
    by rewrite Hscan, Hgiven. }
  destruct favourites as [favs|]; [apply Hsome |].
  rewrite test_favourites_none.
  destruct (load_favourites_world (above_one verbose) _MAIN_LIST _DEFAULT_FILE w)
    as (r & -> & _).
  destruct r as [favs|e]; [apply Hsome | done].
Qed.

Lemma test_favourites_keeps_other_keys_witness :
  ("guests", _DEFAULT_FILE) ≠ (_MAIN_LIST, _DEFAULT_FILE) ∧
  stored "guests" _DEFAULT_FILE
    (test_favourites 1 None (Some lan_printer) 2000 2 w_two_keys).2 = Some [tv].
Proof.
  assert (H : ("guests", _DEFAULT_FILE) ≠ (_MAIN_LIST, _DEFAULT_FILE))
    by (vm_compute; discriminate).
  split; [exact H |].
  rewrite (test_favourites_keeps_other_keys 1 None (Some lan_printer) 2000 2
             w_two_keys "guests" _DEFAULT_FILE H).
  vm_compute. reflexivity.
Defined.

(** ** More on the store *)

(** X1. Reading back what [save] wrote: [load] of the saved key gives the
    saved value, [load] of any other key gives what it gave before,
    [load(None)] gives the old document with the one key set, and loading
    changes nothing in the world. *)
Theorem load_after_save {V} key (value : V) file (w : World V) key' :
  let w1 := (save key value file w).2 in
  ∃ before document,
    load key' file w = (Ok before, w) ∧
    load_all file w = (Ok document, w) ∧
    load key' file w1
      = (Ok (if decide (key' = key) then Some value else before), w1) ∧
    load_all file w1 = (Ok (<[key := value]> document), w1).
Proof.
  intros w1. eexists _, _.
  split_and!; [apply load_world | apply load_all_world | |].
  - rewrite load_world. unfold w1. rewrite save_world. simpl.
    rewrite lookup_insert_eq. simpl. f_equal. f_equal.
    case_decide as Hk.
    + subst. apply lookup_insert_eq.
    + rewrite lookup_insert_ne by done. by destruct (disk w !! file).
  - rewrite load_all_world. unfold w1. rewrite save_world. simpl.
    by rewrite lookup_insert_eq.
Qed.

(** X2. Two saves to one file: on the same key the second value wins and
    the files are as after the second save alone; on different keys the
    order of the two saves does not matter for the files. *)
Theorem save_then_save {V} key1 (value1 : V) key2 (value2 : V) file (w : World V) :
  disk (save key2 value2 file (save key1 value1 file w).2).2
  = if decide (key1 = key2)
    then disk (save key2 value2 file w).2
    else disk (save key1 value1 file (save key2 value2 file w).2).2.
Proof.
  rewrite !save_world. simpl. rewrite !lookup_insert_eq. simpl.
  rewrite !insert_insert_eq. case_decide as Hk.
  - subst. by rewrite insert_insert_eq.
  - f_equal. by apply insert_insert_ne.
Qed.

(** ** More on saving and deleting favourites *)

Lemma save_favourite_given verbose name ip mac lastonline key file devices
    (w : FWorld) :
  listable_all verbose w (default [] (stored key file w)) →
  save_favourite verbose name ip (Some mac) lastonline key file devices w =
    match said verbose (localtime w) lastonline with
    | Ok _ =>
        (Ok true,
         (save key (without_name name (default [] (stored key file w))
                    ++ [fav3 name (ip, mac) lastonline]) file w).2)
    | Raise e => (Raise e, w)
    end.
Proof.
  intros Hl.
  rewrite (save_favourite_loaded _ _ _ _ _ _ _ _ _ _
             (load_favourites_stored _ _ _ _ Hl)).
  unfold bind at 1. unfold ret at 1. cbv beta iota.
  apply save_favourite_tail.
Qed.

Lemma save_favourite_found verbose name ip lastonline key file devices
    (w : FWorld) d :
  resolution ip devices w = Some d →
  listable_all verbose w (default [] (stored key file w)) →
  let w1 := match devices with Some _ => w | None => emit (EvArp ip 2) w end in
  save_favourite verbose name ip None lastonline key file devices w =
    match said verbose (localtime w) lastonline with
    | Ok _ =>
        (Ok true,
         (save key (without_name name (default [] (stored key file w))
                    ++ [fav3 name (ip, d.2) lastonline]) file w1).2)
    | Raise e => (Raise e, w1)
    end.
Proof.
  intros Hres Hl w1.
  rewrite (save_favourite_loaded _ _ _ _ _ _ _ _ _ _
             (load_favourites_stored _ _ _ _ Hl)).
  destruct devices as [devices|]; simpl in Hres; unfold w1.
  - unfold bind at 1. unfold subscript, bind at 1. rewrite Hres.
    unfold ret at 1 2. cbv beta iota. apply save_favourite_tail.
  - unfold bind at 1. unfold bind at 1. unfold send_ARP. unfold first_item, bind at 1.
    destruct (network w (trace w) ip 2) as [|d' ds]; [done |].
    injection Hres as ->. unfold ret at 1 2. cbv beta iota.
    by rewrite save_favourite_tail.
Qed.

Lemma named_app_new name (favourites : list Fav) record :
  f_name record = name →
  named name (without_name name favourites ++ [record]) = [record].
Proof.
  intros Hn. unfold named. rewrite filter_app.
  fold (named name (without_name name favourites)).
  rewrite named_without_name. simpl.
  rewrite filter_cons. by destruct (decide (f_name record = name)).
Qed.

Lemma without_name_app_new name (favourites : list Fav) record :
  f_name record = name →
  without_name name (without_name name favourites ++ [record])
  = without_name name favourites.
Proof.
  intros Hn. unfold without_name. rewrite filter_app, list_filter_filter.
  rewrite (filter_cons _ record).
  destruct (decide (f_name record ≠ name)); [done |].
  rewrite app_nil_r. apply list_filter_iff. intros f. tauto.
Qed.

(** X3. Saving a favourite with its hardware address given, when the call
    can print (it is quiet, or every stored record can be listed and the
    platform formats the new timestamp): it answers True after one
    write; the stored list is the old one (empty when the file or the key
    is missing) without the records of that name, followed by the new
    record; the new record is the only one of that name, and the records
    of other names are the old ones in their order. *)
Theorem save_favourite_replaces verbose name ip mac lastonline key file devices
    (w : FWorld) :
  let old := default [] (stored key file w) in
  let record := fav3 name (ip, mac) lastonline in
  listable_all verbose w old →
  verbose = 0 ∨ localtime w lastonline = None →
  ∃ w',
    save_favourite verbose name ip (Some mac) lastonline key file devices w
      = (Ok true, w') ∧
    stored key file w' = Some (without_name name old ++ [record]) ∧
    named name (without_name name old ++ [record]) = [record] ∧
    without_name name (without_name name old ++ [record]) = without_name name old ∧
    trace w' = trace w ++ [EvWrite file].
Proof.
  intros old record Hl Hp%said_printable. eexists.
  split_and!.
  - rewrite save_favourite_given by done. by rewrite Hp.
  - apply stored_save.
  - by apply named_app_new.
  - by apply without_name_app_new.
  - by rewrite save_world.
Qed.

Lemma save_favourite_replaces_witness :
  listable_all 1 w_nas_tv (default [] (stored _MAIN_LIST _DEFAULT_FILE w_nas_tv)) ∧
  (1 = 0 ∨ localtime w_nas_tv 2000 = None) ∧
  ∃ w',
    save_favourite 1 "nas" "192.168.178.11" (Some "aa:bb:cc:dd:ee:02") 2000
      _MAIN_LIST _DEFAULT_FILE None w_nas_tv = (Ok true, w') ∧
    stored _MAIN_LIST _DEFAULT_FILE w'
      = Some [tv; fav3 "nas" ("192.168.178.11", "aa:bb:cc:dd:ee:02") 2000].
Proof.
  assert (H1 : listable_all 1 w_nas_tv
                 (default [] (stored _MAIN_LIST _DEFAULT_FILE w_nas_tv)))
    by exact nas_tv_listable.
  assert (H2 : 1 = 0 ∨ localtime w_nas_tv 2000 = None)
    by (right; vm_compute; reflexivity).
  split_and!; [exact H1 | exact H2 |].
  destruct (save_favourite_replaces 1 "nas" "192.168.178.11" "aa:bb:cc:dd:ee:02" 2000
              _MAIN_LIST _DEFAULT_FILE None w_nas_tv H1 H2)
    as (w' & Hrun & Hst & _).
  exists w'. split; [exact Hrun |]. rewrite Hst. vm_compute. reflexivity.
Defined.

(** X4. Saving a favourite without its hardware address, when it can be
    found and the call can print: with a snapshot the first device at the
    address supplies it and no request is sent; without one a single
    request with timeout 2 goes to the address and the first answer
    supplies it.  The record is stored under the address asked for, and
    the list is written once, after the request if there is one. *)
Theorem save_favourite_resolves verbose name ip lastonline key file devices
    (w : FWorld) d :
  resolution ip devices w = Some d →
  let old := default [] (stored key file w) in
  listable_all verbose w old →
  verbose = 0 ∨ localtime w lastonline = None →
  ∃ w',
    save_favourite verbose name ip None lastonline key file devices w = (Ok true, w') ∧
    stored key file w'
      = Some (without_name name old ++ [fav3 name (ip, d.2) lastonline]) ∧
    trace w' = trace w
               ++ match devices with Some _ => [] | None => [EvArp ip 2] end
               ++ [EvWrite file].
Proof.
  intros Hres old Hl Hp%said_printable. eexists.
  split_and!.
  - rewrite (save_favourite_found _ _ _ _ _ _ _ _ _ Hres Hl). by rewrite Hp.
  - apply stored_save.
  - rewrite save_world. destruct devices; simpl; [done |].
    by rewrite <- app_assoc.
Qed.

Lemma save_favourite_resolves_witness :
  resolution "192.168.178.99" (Some lan_printer) w_nas_tv
    = Some ("192.168.178.99", "aa:bb:cc:dd:ee:01") ∧
  ∃ w',
    save_favourite 1 "printer" "192.168.178.99" None 2000 _MAIN_LIST _DEFAULT_FILE
      (Some lan_printer) w_nas_tv = (Ok true, w') ∧
    stored _MAIN_LIST _DEFAULT_FILE w'
      = Some [nas; tv; fav3 "printer" ("192.168.178.99", "aa:bb:cc:dd:ee:01") 2000].
Proof.
  assert (H : resolution "192.168.178.99" (Some lan_printer) w_nas_tv
              = Some ("192.168.178.99", "aa:bb:cc:dd:ee:01"))
    by (vm_compute; reflexivity).
  split; [exact H |].
  destruct (save_favourite_resolves 1 "printer" "192.168.178.99" 2000 _MAIN_LIST
              _DEFAULT_FILE (Some lan_printer) w_nas_tv _ H)
    as (w' & Hrun & Hst & _);
    [exact nas_tv_listable | right; vm_compute; reflexivity |].
  exists w'. split; [exact Hrun |]. rewrite Hst. vm_compute. reflexivity.
Defined.

(** X5. The last save under a name wins: when both calls can print (they
    are quiet, or the stored records can be listed, the platform formats
    both timestamps and the first address has two characters at least),
    whatever was saved under the name just before, the stored list after
    the second save is the one the second save alone would have left. *)
Theorem save_favourite_last_wins verbose name ip mac lastonline ip0 mac0 lastonline0
    key file devices devices0 (w : FWorld) :
  verbose = 0 ∨
  (Forall (listable w) (default [] (stored key file w)) ∧
   localtime w lastonline = None ∧ localtime w lastonline0 = None ∧
   (2 ≤ String.length ip0)%nat) →
  let w1 := (save_favourite verbose name ip0 (Some mac0) lastonline0 key file
               devices0 w).2 in
  ∃ w2 w2',
    save_favourite verbose name ip (Some mac) lastonline key file devices w1
      = (Ok true, w2) ∧
    save_favourite verbose name ip (Some mac) lastonline key file devices w
      = (Ok true, w2') ∧
    stored key file w2 = stored key file w2'.
Proof.
  intros Hq w1.
  set (old := default [] (stored key file w)).
  assert (Hl : listable_all verbose w old) by (destruct Hq as [?|(? & _)]; [by left | by right]).
  assert (Hp : said verbose (localtime w) lastonline = Ok ()).
  { apply said_printable. destruct Hq as [?|(_ & ? & _)]; auto. }
  assert (Hp0 : said verbose (localtime w) lastonline0 = Ok ()).
  { apply said_printable. destruct Hq as [?|(_ & _ & ? & _)]; auto. }
  assert (Hw1 : w1 = (save key (without_name name old
                                ++ [fav3 name (ip0, mac0) lastonline0]) file w).2).
  { unfold w1. rewrite save_favourite_given by done. by rewrite Hp0. }
  assert (Hst1 : stored key file w1
                 = Some (without_name name old ++ [fav3 name (ip0, mac0) lastonline0]))
    by (rewrite Hw1; apply stored_save).
  assert (Hlt1 : localtime w1 = localtime w) by (rewrite Hw1; by rewrite save_world).
  assert (Hl1 : listable_all verbose w1 (default [] (stored key file w1))).
  { rewrite Hst1. destruct Hq as [?|(Hold & _ & Ht0 & Hlen)]; [by left | right].
    apply Forall_app. split.
    - apply without_name_listable. eapply Forall_impl; [exact Hold |].
      intros f. by apply listable_platform.
    - apply Forall_cons. split; [|constructor].
      exists lastonline0. rewrite Hlt1. done. }
  eexists _, _. split_and!.
  - rewrite save_favourite_given by done. by rewrite Hlt1, Hp.
  - rewrite save_favourite_given by done. by rewrite Hp.
  - rewrite !stored_save, Hst1. cbn [default from_option id].
    by rewrite without_name_app_new.
Qed.

Lemma save_favourite_last_wins_witness :
  ∃ w2 w2',
    save_favourite 1 "nas" "192.168.178.12" (Some "aa:bb:cc:dd:ee:02") 2000
      _MAIN_LIST _DEFAULT_FILE None
      (save_favourite 1 "nas" "192.168.178.11" (Some "aa:bb:cc:dd:ee:02") 1500
         _MAIN_LIST _DEFAULT_FILE None w_nas_tv).2 = (Ok true, w2) ∧
    save_favourite 1 "nas" "192.168.178.12" (Some "aa:bb:cc:dd:ee:02") 2000
      _MAIN_LIST _DEFAULT_FILE None w_nas_tv = (Ok true, w2') ∧
    stored _MAIN_LIST _DEFAULT_FILE w2 = stored _MAIN_LIST _DEFAULT_FILE w2'.
Proof.
  apply (save_favourite_last_wins 1 "nas" "192.168.178.12" "aa:bb:cc:dd:ee:02" 2000
           "192.168.178.11" "aa:bb:cc:dd:ee:02" 1500 _MAIN_LIST _DEFAULT_FILE
           None None w_nas_tv).
  right. split_and!.
  - destruct nas_tv_listable as [H|H]; [discriminate H | exact H].
  - vm_compute. reflexivity.
  - vm_compute. reflexivity.
  - vm_compute. lia.
Defined.

(** X6. Deleting a name right after saving it, when both calls can print
    (they are quiet, or the stored records can be listed, the platform
    formats the new timestamp and the new address has two characters at
    least): the deletion answers True and leaves the old list without
    the records of that name, the old list itself when the name was
    new. *)
Theorem delete_after_save verbose name ip mac lastonline key file devices
    (w : FWorld) :
  verbose = 0 ∨
  (Forall (listable w) (default [] (stored key file w)) ∧
   localtime w lastonline = None ∧ (2 ≤ String.length ip)%nat) →
  let old := default [] (stored key file w) in
  ∃ w1 w2,
    save_favourite verbose name ip (Some mac) lastonline key file devices w
      = (Ok true, w1) ∧
    delete_favourite verbose name key file w1 = (Ok true, w2) ∧
    stored key file w2 = Some (without_name name old) ∧
    (named name old = [] ↔ without_name name old = old).
Proof.
  intros Hq old.
  assert (Hl : listable_all verbose w old) by (destruct Hq as [?|(? & _)]; [by left | by right]).
  assert (Hp : said verbose (localtime w) lastonline = Ok ()).
  { apply said_printable. destruct Hq as [?|(_ & ? & _)]; auto. }
  set (record := fav3 name (ip, mac) lastonline).
  set (w1 := (save key (without_name name old ++ [record]) file w).2).
  assert (Hrun1 : save_favourite verbose name ip (Some mac) lastonline key file
                    devices w = (Ok true, w1)).
  { rewrite save_favourite_given by done. by rewrite Hp. }
  assert (Hst : stored key file w1 = Some (without_name name old ++ [record]))
    by apply stored_save.
  assert (Hlt1 : localtime w1 = localtime w) by (unfold w1; by rewrite save_world).
  assert (Hl1 : listable_all verbose w1 (without_name name old ++ [record])).
  { destruct Hq as [?|(Hold & Ht & Hlen)]; [by left | right].
    apply Forall_app. split.
    - apply without_name_listable. eapply Forall_impl; [exact Hold |].
      intros f. by apply listable_platform.
    - apply Forall_cons. split; [|constructor].
      exists lastonline. rewrite Hlt1. done. }
  exists w1. eexists. split_and!.
  - exact Hrun1.
  - rewrite (delete_favourite_run _ _ _ _ _ _ Hst Hl1).
    assert (truthy (without_name name old ++ [record]) = true)
      as -> by (by destruct (without_name name old)).
    reflexivity.
  - rewrite stored_save. f_equal. by apply without_name_app_new.
  - unfold named, without_name. clearbody old. clear.
    induction old as [|f l IH]; [done |].
    rewrite !filter_cons.
    destruct (decide (f_name f = name)) as [He|Hn].
    + destruct (decide (f_name f ≠ name)); [done |].
      split; [done |]. intros Hl.
      assert (Hlen : (length (filter (λ f0, f_name f0 ≠ name) l) ≤ length l)%nat)
        by apply length_filter.
      rewrite Hl in Hlen. simpl in Hlen. lia.
    + destruct (decide (f_name f ≠ name)); [|done].
      rewrite IH. split; [by intros -> | by intros [=]].
Qed.

Lemma delete_after_save_witness :
  ∃ w1 w2,
    save_favourite 1 "printer" "192.168.178.50" (Some "aa:bb:cc:dd:ee:01") 1000
      _MAIN_LIST _DEFAULT_FILE None w_nas_tv = (Ok true, w1) ∧
    delete_favourite 1 "printer" _MAIN_LIST _DEFAULT_FILE w1 = (Ok true, w2) ∧
    stored _MAIN_LIST _DEFAULT_FILE w2 = Some [nas; tv].
Proof.
  destruct (delete_after_save 1 "printer" "192.168.178.50" "aa:bb:cc:dd:ee:01" 1000
              _MAIN_LIST _DEFAULT_FILE None w_nas_tv)
    as (w1 & w2 & Hrun1 & Hrun2 & Hst & _).
  - right. split_and!.
    + destruct nas_tv_listable as [H|H]; [discriminate H | exact H].
    + vm_compute. reflexivity.
    + vm_compute. lia.
  - exists w1, w2. split_and!; [exact Hrun1 | exact Hrun2 |].
    rewrite Hst. vm_compute. reflexivity.
Defined.

(** X7. What deleting comes to.  When the listing of the stored records
    can be printed (always, for a quiet call), it answers False exactly
    when there is no list or an empty one, and then nothing is written
    and the world is as before; otherwise it answers True and writes
    once, whether or not the name occurs.  When the listing cannot be
    printed, it raises and the world is as before.  What it stores is
    the old list with exactly the records of that name taken out, the
    others in their order. *)
Theorem delete_favourite_outcome verbose name key file (w : FWorld) :
  let old := default [] (stored key file w) in
  ((listable_all verbose w old ∧
    ∃ w',
      delete_favourite verbose name key file w = (Ok (truthy old), w') ∧
      (if truthy old
       then stored key file w' = Some (without_name name old) ∧
            trace w' = trace w ++ [EvWrite file]
       else w' = w)) ∨
   (¬ listable_all verbose w old ∧
    ∃ e, delete_favourite verbose name key file w = (Raise e, w))) ∧
  without_name name old `sublist_of` old ∧
  ∀ f, f ∈ without_name name old ↔ f ∈ old ∧ f_name f ≠ name.
Proof.
  intros old. split_and!.
  - destruct (delete_favourite_world verbose name key file w) as [[Hl Hrun]|[Hn He]];
      fold old in Hl || fold old in Hn; [left | right; by split].
    split; [done |]. fold old in Hrun. rewrite Hrun.
    exists (if truthy old then (save key (without_name name old) file w).2 else w).
    split; [by destruct (truthy old) |].
    destruct (truthy old); [|done]. split; [apply stored_save |].
    by rewrite save_world.
  - apply sublist_filter.
  - intros f. unfold without_name. rewrite list_elem_of_filter. tauto.
Qed.

(** X8. Saving and deleting favourites touch one key of one file: the
    list under any other key or in any other file is as before, at any
    verbosity and however the call ends. *)
Theorem favourites_edits_elsewhere verbose name ip mac lastonline key file devices
    (w : FWorld) key' file' :
  (key', file') ≠ (key, file) →
  stored key' file'
    (save_favourite verbose name ip mac lastonline key file devices w).2
    = stored key' file' w ∧
  stored key' file' (delete_favourite verbose name key file w).2 = stored key' file' w.
Proof.
  intros Hne. split.
  - destruct (load_favourites_world verbose key file w) as (r & Hload & _).
    destruct r as [l|e];
      [|by rewrite (save_favourite_unloaded _ _ _ _ _ _ _ _ _ _ Hload)].
    rewrite (save_favourite_loaded _ _ _ _ _ _ _ _ _ _ Hload).
    destruct mac as [m|]; [| destruct devices as [ds|]].
    + unfold bind at 1. unfold ret at 1. cbv beta iota.
      rewrite save_favourite_tail. destruct (said _ _ _); [|done].
      cbn [snd]. by apply stored_save_other.
    + unfold bind at 1. unfold subscript, bind at 1.
      destruct (match_ip_in_devices ip ds); [|done].
      unfold ret at 1 2. cbv beta iota.
      rewrite save_favourite_tail. destruct (said _ _ _); [|done].
      cbn [snd]. by apply stored_save_other.
    + unfold bind at 1. unfold bind at 1. unfold send_ARP. unfold first_item, bind at 1.
      destruct (network w (trace w) ip 2); [done |].
      unfold ret at 1 2. cbv beta iota.
      rewrite save_favourite_tail. destruct (said _ _ _); [|done].
      cbn [snd]. by rewrite stored_save_other.
  - destruct (delete_favourite_world verbose name key file w)
      as [[_ ->]|[_ [e ->]]]; [|done].
    destruct (truthy _); [|done]. cbn [snd]. by apply stored_save_other.
Qed.

Lemma favourites_edits_elsewhere_witness :
  ("guests", _DEFAULT_FILE) ≠ (_MAIN_LIST, _DEFAULT_FILE) ∧
  stored "guests" _DEFAULT_FILE
    (save_favourite 1 "printer" "192.168.178.99" None 2000 _MAIN_LIST _DEFAULT_FILE
       (Some lan_printer) w_two_keys).2 = Some [tv] ∧
  stored "guests" _DEFAULT_FILE
    (delete_favourite 1 "nas" _MAIN_LIST _DEFAULT_FILE w_two_keys).2 = Some [tv].
Proof.
  assert (H : ("guests", _DEFAULT_FILE) ≠ (_MAIN_LIST, _DEFAULT_FILE))
    by (vm_compute; discriminate).
  split; [exact H |].
  destruct (favourites_edits_elsewhere 1 "printer" "192.168.178.99" None 2000
              _MAIN_LIST _DEFAULT_FILE (Some lan_printer) w_two_keys
              "guests" _DEFAULT_FILE H) as [H1 _].
  destruct (favourites_edits_elsewhere 1 "nas" "" None 0
              _MAIN_LIST _DEFAULT_FILE None w_two_keys
              "guests" _DEFAULT_FILE H) as [_ H2].
  rewrite H1, H2. split; vm_compute; reflexivity.
Defined.

(** ** Gateways *)

Lemma all_silent_nil {V} (w : World V) : all_silent w [].
Proof. intros earlier g later E. by destruct earlier. Qed.

Lemma all_silent_cons {V} (w : World V) g gateways :
  answered w [] g = false →
  all_silent (emit (EvArp g 5) w) gateways →
  all_silent w (g :: gateways).
Proof.
  intros Hg Hrest earlier x later E. destruct earlier as [|y earlier]; simpl in E.
  - by injection E as <- _.
  - injection E as <- ->. specialize (Hrest earlier x later eq_refl).
    unfold answered in *. simpl in Hrest.
    by rewrite <- app_assoc in Hrest.
Qed.

(** X9. [test_all_gateways] never raises and never writes.  It asks the
    gateways in the order of the list, each once with timeout 5, and stops
    at the first that answers, which it returns, the ones before it having
    been silent at their turn; it returns None exactly after asking them
    all in vain. *)
Theorem test_all_gateways_first {V} gateways (w : World V) :
  ∃ chosen asked w',
    test_all_gateways gateways w = (Ok chosen, w') ∧
    disk w' = disk w ∧ network w' = network w ∧
    trace w' = trace w ++ gateway_probes asked ∧
    match chosen with
    | Some g =>
        ∃ earlier later,
          asked = earlier ++ [g] ∧ gateways = asked ++ later ∧
          all_silent w earlier ∧ answered w earlier g = true
    | None => asked = gateways ∧ all_silent w gateways
    end.
Proof.
  revert w. induction gateways as [|g rest IH]; intros w.
  - exists None, [], w. split_and!; try done.
    + unfold gateway_probes. simpl. by rewrite app_nil_r.
    + apply all_silent_nil.
  - cbn [test_all_gateways]. unfold bind, test_gateway, send_ARP.
    destruct (truthy (network w (trace w) g 5)) eqn:Hg.
    + exists (Some g), [g], (emit (EvArp g 5) w). split_and!; try done.
      exists [], rest. split_and!; [done | done | apply all_silent_nil |].
      unfold answered, gateway_probes. simpl. by rewrite app_nil_r.
    + destruct (IH (emit (EvArp g 5) w)) as (chosen & asked & w' & -> & Hd & Hn & Ht & Hc).
      assert (Hg0 : answered w [] g = false).
      { unfold answered, gateway_probes. simpl. by rewrite app_nil_r. }
      exists chosen, (g :: asked), w'. split_and!; [done | done | done | |].
      * rewrite Ht. simpl. by rewrite <- app_assoc.
      * destruct chosen as [x|].
        -- destruct Hc as (earlier & later & -> & -> & Hs & Ha).
           exists (g :: earlier), later. split_and!; [done | done | |].
           ++ by apply all_silent_cons.
           ++ unfold answered in *. simpl in Ha. by rewrite <- app_assoc in Ha.
        -- destruct Hc as [-> Hs]. split; [done | by apply all_silent_cons].
Qed.

(** ** The command line *)

(** X10. When the preferred gateway does not answer the first request,
    the script ends without a pass: nothing is loaded, scanned or written.
    It asks the preferred gateway a second time and, if that fails too,
    the backup gateway; the exit status is 1 if either answers (also when
    it is the preferred gateway that answers the second time), 2 if
    neither does. *)
Theorem main_gateway_down now (w : FWorld) :
  truthy (network w (trace w) _PREFERRED_GATEWAY 5) = false →
  let ask := EvArp _PREFERRED_GATEWAY 5 in
  let again := truthy (network w (trace w ++ [ask]) _PREFERRED_GATEWAY 5) in
  let backup := truthy (network w (trace w ++ [ask; ask]) _BACKUP_GATEWAY 5) in
  ∃ w',
    main now w = (Ok (Exited (if again || backup then 1 else 2)), w') ∧
    disk w' = disk w ∧
    trace w' = trace w ++ [ask; ask]
               ++ (if again then [] else [EvArp _BACKUP_GATEWAY 5]).
Proof.
  intros Hdown ask again backup.
  unfold main, bind at 1. unfold test_gateway at 1, send_ARP at 1.
  rewrite Hdown. cbn [negb]. unfold bind at 1.
  cbn [test_all_gateways]. unfold bind, test_gateway, send_ARP, ret.
  cbn [emit trace network disk localtime]. fold ask. fold again.
  assert (Hp : truthy_gateway (Some _PREFERRED_GATEWAY) = true)
    by (vm_compute; reflexivity).
  assert (Hb : truthy_gateway (Some _BACKUP_GATEWAY) = true)
    by (vm_compute; reflexivity).
  destruct again; cbn [orb]; cbv beta iota.
  - rewrite Hp. eexists. split_and!; [reflexivity | done |].
    cbn [emit trace]. by rewrite <- ?app_assoc.
  - cbn [emit trace network localtime].
    replace ((trace w ++ [ask]) ++ [ask]) with (trace w ++ [ask; ask])
      by (by rewrite <- app_assoc).
    fold backup. destruct backup; cbv beta iota.
    + rewrite Hb. eexists. split_and!; [reflexivity | done |].
      cbn [emit trace]. by rewrite <- !app_assoc.
    + eexists. split_and!; [reflexivity | done |].
      cbn [emit trace]. by rewrite <- !app_assoc.
Qed.

Lemma main_gateway_down_witness :
  truthy (network w_backup_only (trace w_backup_only) _PREFERRED_GATEWAY 5) = false ∧
  ∃ w', main 2000 w_backup_only = (Ok (Exited 1), w') ∧
        disk w' = disk w_backup_only.
Proof.
  assert (H : truthy (network w_backup_only (trace w_backup_only)
                              _PREFERRED_GATEWAY 5) = false)
    by (vm_compute; reflexivity).
  split; [exact H |].
  destruct (main_gateway_down 2000 w_backup_only H) as (w' & Hrun & Hd & _).
  exists w'. split; [exact Hrun | exact Hd].
Defined.

(** X11. When the preferred gateway answers the first request, the script
    runs one pass at the default verbosity and nothing else: the
    favourites on file (none when the file or the key is missing, and
    loaded without listing), against one scan of the home range with
    timeout 2 sent right after the gateway request, with the report of
    the pass as its result; an exception of the pass is the script's. *)
Theorem main_gateway_up now (w : FWorld) :
  truthy (network w (trace w) _PREFERRED_GATEWAY 5) = true →
  let favourites := default [] (stored _MAIN_LIST _DEFAULT_FILE w) in
  let asked := trace w ++ [EvArp _PREFERRED_GATEWAY 5] in
  let devices := network w asked _HOME_RANGE 2 in
  let w1 := mkWorld (disk w) (network w) (localtime w)
                    (asked ++ [EvArp _HOME_RANGE 2]) in
  main now w =
    match test_favourites __DEFAULT_VERBOSE (Some favourites) (Some devices)
            now 2 w1 with
    | (Ok online, w') => (Ok (Finished online), w')
    | (Raise e, w') => (Raise e, w')
    end.
Proof.
  intros Hup favourites asked devices w1.
  unfold main, bind at 1. unfold test_gateway, send_ARP.
  rewrite Hup. cbn [negb]. unfold bind at 1.
  rewrite test_favourites_none.
  rewrite load_favourites_stored by (by left).
  change (stored _MAIN_LIST _DEFAULT_FILE (emit (EvArp _PREFERRED_GATEWAY 5) w))
    with (stored _MAIN_LIST _DEFAULT_FILE w).
  fold favourites.
  change (test_favourites __DEFAULT_VERBOSE (Some favourites) None now 2
            (emit (EvArp _PREFERRED_GATEWAY 5) w))
    with (test_favourites __DEFAULT_VERBOSE (Some favourites) (Some devices) now 2 w1).
  by destruct (test_favourites _ _ _ _ _ _) as [[online|e] w'].
Qed.

Lemma main_gateway_up_witness :
  truthy (network w_home_up (trace w_home_up) _PREFERRED_GATEWAY 5) = true ∧
  (main 2000 w_home_up).1 = Ok (Finished [nas]) ∧
  stored _MAIN_LIST _DEFAULT_FILE (main 2000 w_home_up).2
    = Some [fav3 "nas" ("192.168.178.10", "aa:bb:cc:dd:ee:02") 2000].
Proof.
  assert (H : truthy (network w_home_up (trace w_home_up) _PREFERRED_GATEWAY 5) = true)
    by (vm_compute; reflexivity).
  split; [exact H |].
  rewrite (main_gateway_up 2000 w_home_up H).
  split; vm_compute; reflexivity.
Defined.

(** ** Backup *)

Lemma append_longer s c t : s +:+ String c t ≠ s.
Proof.
  induction s as [|a s IH]; simpl; [done |].
  intros [= E]. by apply IH.
Qed.

(** X12. A backup of a missing file answers False and changes nothing.
    A backup of an existing file answers True after one write: the backup
    holds the document of the source, so every key loads from it what it
    loads from the source; the source and every file other than the backup
    are as before.  The default backup name is never the name of the
    source. *)
Theorem backup_file_copies {V} file new_backup_file stamp (w : World V) :
  let target := default (file +:+ "." +:+ stamp +:+ ".bak") new_backup_file in
  ∃ w',
    backup_file file new_backup_file stamp w
      = (Ok (bool_decide (is_Some (disk w !! file))), w') ∧
    (new_backup_file = None → target ≠ file) ∧
    match disk w !! file with
    | None => w' = w
    | Some data =>
        disk w' !! target = Some data ∧
        disk w' !! file = Some data ∧
        (∀ other, other ≠ target → disk w' !! other = disk w !! other) ∧
        (∀ key, (load key target w').1 = (load key file w).1) ∧
        trace w' = trace w ++ [EvWrite target]
    end.
Proof.
  intros target.
  assert (Hrun : backup_file file new_backup_file stamp w =
    match disk w !! file with
    | None => (Ok false, w)
    | Some data => (Ok true, mkWorld (<[target := data]> (disk w)) (network w)
                                     (localtime w) (trace w ++ [EvWrite target]))
    end).
  { unfold backup_file, bind, read_file, write_file, ret. fold target.
    unfold target. destruct new_backup_file; by destruct (disk w !! file). }
  rewrite Hrun. destruct (disk w !! file) as [data|] eqn:Hfile.
  - eexists. split_and!; [reflexivity | | | | | |]; simpl.
    + intros ->. apply append_longer.
    + by rewrite lookup_insert_eq.
    + destruct (decide (target = file)) as [->|Hne].
      * by rewrite lookup_insert_eq.
      * by rewrite lookup_insert_ne.
    + intros other Hne. by rewrite lookup_insert_ne.
    + intros key. rewrite !load_world. simpl.
      by rewrite lookup_insert_eq, Hfile.
    + done.
  - exists w. split_and!; [done | | done].
    intros ->. apply append_longer.
Qed.

(** ** More on the matcher *)

(** X13. The code [match_in_devices] returns depends only on which
    devices the snapshot holds, not on their order or on repetitions: two
    snapshots with the same devices give the same code. *)
Theorem match_in_devices_same_devices ip mac (devices devices' : list Device) :
  (∀ d, d ∈ devices ↔ d ∈ devices') →
  match_in_devices ip mac devices = match_in_devices ip mac devices'.
Proof.
  intros Hsame.
  assert (Hf : full_match ip mac devices = full_match ip mac devices').
  { apply eq_true_iff_eq. rewrite !full_match_elem. apply Hsame. }
  assert (Hi : match_ip_in_devices ip devices = None
               ↔ match_ip_in_devices ip devices' = None).
  { rewrite !match_ip_in_devices_None.
    split; intros Hx d Hd; apply Hx; by apply Hsame. }
  assert (Hm : match_mac_in_devices mac devices = None
               ↔ match_mac_in_devices mac devices' = None).
  { rewrite !match_mac_in_devices_None.
    split; intros Hx d Hd; apply Hx; by apply Hsame. }
  unfold match_in_devices. rewrite Hf.
  destruct (full_match ip mac devices'); [done |].
  destruct (match_ip_in_devices ip devices), (match_ip_in_devices ip devices'),
    (match_mac_in_devices mac devices), (match_mac_in_devices mac devices');
    try reflexivity; exfalso;
    first [ by destruct Hi as [Hi _]; specialize (Hi eq_refl)
          | by destruct Hi as [_ Hi]; specialize (Hi eq_refl)
          | by destruct Hm as [Hm _]; specialize (Hm eq_refl)
          | by destruct Hm as [_ Hm]; specialize (Hm eq_refl) ].
Qed.

Lemma match_in_devices_same_devices_witness :
  (∀ d, d ∈ lan_phone ↔ d ∈ reverse lan_phone ++ lan_phone) ∧
  match_in_devices "192.168.178.20" "11:22:33:44:55:66" lan_phone
    = match_in_devices "192.168.178.20" "11:22:33:44:55:66"
        (reverse lan_phone ++ lan_phone).
Proof.
  assert (H : ∀ d, d ∈ lan_phone ↔ d ∈ reverse lan_phone ++ lan_phone).
  { intros d. rewrite elem_of_app, elem_of_reverse. tauto. }
  split; [exact H |].
  exact (match_in_devices_same_devices _ _ _ _ H).
Defined.

(** ** More on the pass *)

Lemma test_favourites_completes_witness :
  Forall (λ fav, ¬ moved lan_phone fav) [phone] ∧
  Forall (speakable 1 w_init) [phone] ∧
  ∃ online new_favourites w' evs,
    test_favourites 1 (Some [phone]) (Some lan_phone) 2000 2 w_init = (Ok online, w') ∧
    (for_favourites 1 lan_phone 2000 2 [phone] ([], []) w_init).1
      = Ok (online, new_favourites) ∧
    stored _MAIN_LIST _DEFAULT_FILE w' = Some new_favourites ∧
    trace w' = trace w_init ++ evs ++ [EvWrite _DEFAULT_FILE] ∧
    Forall (λ ev, is_arp ev = true) evs.
Proof.
  assert (H : Forall (λ fav, ¬ moved lan_phone fav) [phone]).
  { apply Forall_cons. split; [|constructor].
    intros [H|H]; vm_compute in H; discriminate H. }
  assert (Hs : Forall (speakable 1 w_init) [phone]).
  { apply Forall_cons. split; [right; vm_compute; reflexivity | constructor]. }
  split_and!; [exact H | exact Hs |].
  exact (test_favourites_completes 1 [phone] lan_phone 2000 2 w_init H Hs).
Defined.

Lemma for_favourites_all_present verbose devices now timeout favourites :
  Forall (λ fav, f_addr fav ∈ devices) favourites →
  ∀ online new (w : FWorld),
    Forall (speakable verbose w) favourites →
    for_favourites verbose devices now timeout favourites (online, new) w
    = (Ok (online ++ favourites,
           new ++ ((λ fav, fav3 (f_name fav) (f_addr fav) now) <$> favourites)), w).
Proof.
  induction favourites as [|fav rest IH]; intros Hall online new w Hsp.
  - simpl. by rewrite !app_nil_r.
  - apply Forall_cons in Hall as [Hfav Hall]. apply Forall_cons in Hsp as [Hs Hsp].
    cbn [for_favourites]. unfold bind.
    assert (H : classify devices fav = 4).
    { unfold classify, match_in_devices, fav_ip, fav_mac.
      destruct (f_addr fav) as [ip mac]. simpl.
      by apply full_match_elem in Hfav as ->. }
    rewrite (test_favourite_full_match _ _ _ _ _ _ _ _ H), (said_speakable _ _ _ Hs).
    rewrite (IH Hall _ _ _ Hsp). rewrite <- !app_assoc. simpl.
    unfold fav_ip, fav_mac. by destruct (f_addr fav).
Qed.

(** X16. When every favourite is in the snapshot with both its address
    and its hardware address, and the message about each can be printed
    (the pass is quiet, or the platform formats its timestamp), the pass
    sends no request, reports the favourites exactly as they were given,
    and stores each of them with the timestamp [now] in its one write. *)
Theorem test_favourites_all_present verbose favourites devices now timeout
    (w : FWorld) :
  Forall (λ fav, f_addr fav ∈ devices) favourites →
  Forall (speakable verbose w) favourites →
  ∃ w',
    test_favourites verbose (Some favourites) (Some devices) now timeout w
      = (Ok favourites, w') ∧
    stored _MAIN_LIST _DEFAULT_FILE w'
      = Some ((λ fav, fav3 (f_name fav) (f_addr fav) now) <$> favourites) ∧
    trace w' = trace w ++ [EvWrite _DEFAULT_FILE].
Proof.
  intros Hall Hsp. rewrite test_favourites_given.
  rewrite (for_favourites_all_present _ _ _ _ _ Hall _ _ _ Hsp). cbn [app].
  eexists. split_and!; [reflexivity | apply stored_save |].
  by rewrite save_world.
Qed.

Lemma test_favourites_all_present_witness :
  Forall (λ fav, f_addr fav ∈ lan_nas_printer) [nas] ∧
  Forall (speakable 1 w_init) [nas] ∧
  ∃ w',
    test_favourites 1 (Some [nas]) (Some lan_nas_printer) 2000 2 w_init
      = (Ok [nas], w') ∧
    stored _MAIN_LIST _DEFAULT_FILE w'
      = Some [fav3 "nas" ("192.168.178.10", "aa:bb:cc:dd:ee:02") 2000].
Proof.
  assert (H : Forall (λ fav, f_addr fav ∈ lan_nas_printer) [nas]).
  { apply Forall_cons. split; [left | constructor]. }
  assert (Hs : Forall (speakable 1 w_init) [nas]).
  { apply Forall_cons. split; [right; vm_compute; reflexivity | constructor]. }
  split_and!; [exact H | exact Hs |].
  destruct (test_favourites_all_present 1 [nas] lan_nas_printer 2000 2 w_init H Hs)
    as (w' & Hrun & Hst & _).
  exists w'. split; [exact Hrun | exact Hst].
Defined.

(** X17. A pass that completes, at any verbosity, never drops a favourite
    and never reports a stranger.  The names in the stored list are those
    of the favourites in their order, each conflict followed by its
    derived _CONFLICT_OLDIP_NEWMAC name; the report, read as (name,
    hardware address), is a subsequence of the favourites: the hardware
    address of a reported entry is always the favourite's own. *)
Theorem test_favourites_keeps_names verbose favourites devices now timeout
    (w : FWorld) online w' :
  test_favourites verbose (Some favourites) (Some devices) now timeout w
    = (Ok online, w') →
  ∃ updated,
    stored _MAIN_LIST _DEFAULT_FILE w' = Some updated ∧
    f_name <$> updated = favourites ≫= names_written devices ∧
    (length favourites ≤ length updated)%nat ∧
    identity <$> online `sublist_of` identity <$> favourites.
Proof.
  rewrite test_favourites_given. intros Hrun.
  destruct (for_favourites verbose devices now timeout favourites ([], []) w)
    as [[[online1 new1]|e] w1] eqn:Hloop; [|done].
  injection Hrun as <- <-.
  apply for_favourites_adds in Hloop as (o & n & -> & -> & Hn & Ho).
  exists n. split_and!; [apply stored_save | exact Hn | | exact Ho].
  rewrite <- (length_fmap f_name n), Hn. clear.
  induction favourites as [|fav rest IH]; [done |].
  rewrite bind_cons, length_app. unfold names_written at 1.
  destruct (decide _); simpl; lia.
Qed.

Lemma test_favourites_keeps_names_witness :
  ∃ w',
    test_favourites 1 (Some [phone]) (Some lan_phone) 2000 2 w_init
      = (Ok [fav3 "phone" ("192.168.178.77", "11:22:33:44:55:66") 500], w') ∧
    ∃ updated,
      stored _MAIN_LIST _DEFAULT_FILE w' = Some updated ∧
      f_name <$> updated = ["phone"; "phone_CONFLICT_OLDIP_NEWMAC"].
Proof.
  destruct (test_favourites 1 (Some [phone]) (Some lan_phone) 2000 2 w_init)
    as [r w'] eqn:Hrun.
  pose proof (f_equal fst Hrun) as Hr. vm_compute in Hr. subst r.
  exists w'. split; [reflexivity |].
  destruct (test_favourites_keeps_names 1 [phone] lan_phone 2000 2 w_init _ _ Hrun)
    as (updated & Hst & Hn & _).
  exists updated. split; [exact Hst |]. rewrite Hn. vm_compute. reflexivity.
Defined.
